(** * CryptoBot: the paper-trading ledger, the trade executor and the
      RSI + EMA strategy, embedded from the Python sources.

    Conventions of the embedding.
    - A Python [float] is an exact rational ([Q]); rounding is not modelled,
      so the statements about amounts keep to the expressions the code
      computes, in its order of operations.  Where rounding decides the
      answer (the comparison of [can_afford]) the function is also given
      on binary64 doubles.  A float that may be NaN (a DataFrame cell) is
      a [cell].
    - A Python [int] is in [Z]; one that is bound to a SQL parameter must
      fit a signed 64-bit integer, [sqlite3] raises [OverflowError]
      otherwise.
    - The SQLite file is the record [Db]; every function of [database.py]
      is a computation in the monad [M], which threads the [Db] and may
      raise a Python exception.  Each function of [database.py] commits
      its writes before it returns, so a raise in a later call keeps the
      writes of the earlier ones.
    - [datetime.now()] is an input: the operations that stamp a row take the
      clock reading [now] as an argument.
    - [print] calls are dropped; formatted messages are kept as structured
      values ([Error], [Reason]). *)

From Stdlib Require Import QArith Qminmax Lqa Lia ZArith Floats.
From stdpp Require Import gmap strings list fin_maps sorting.

Local Open Scope Q_scope.

(** Decimal literals of doubles stand for the nearest double, as in Python. *)
#[local] Set Warnings "-inexact-float".

(** ** Float comparisons and division *)

Definition Qltb (x y : Q) : bool := negb (Qle_bool y x).

(** Python truthiness of a float: [0.0] is falsy. *)
Definition truthy (x : Q) : bool := negb (Qeq_bool x 0).

(** ** config.py *)

Module config.
Definition STARTING_BALANCE_USDT : Q := 10000.
Definition TRADING_FEE_PERCENT : Q := 1 # 10.
Definition RSI_OVERSOLD : Q := 30.
Definition RSI_OVERBOUGHT : Q := 70.
End config.

(** ** The store and the monad of [database.py] *)

Inductive Side := buy | sell.

Record Candle := mkCandle {
  c_symbol : string;
  c_timestamp : Z;
  c_open : Q;
  c_high : Q;
  c_low : Q;
  c_close : Q;
  c_volume : Q
}.

Record Trade := mkTrade {
  t_id : Z;
  t_symbol : string;
  t_side : Side;
  t_amount : Q;
  t_price : Q;
  t_fee : Q;
  t_timestamp : Z;
  t_pnl : Q
}.

(** A row of the [positions] table; the symbol is the (UNIQUE) key of the
    map that holds the rows. *)
Record Position := mkPosition {
  amount : Q;
  avg_entry_price : Q;
  unrealized_pnl : Q
}.

Record Account := mkAccount {
  cash_balance : Q;
  total_equity : Q;
  last_updated : Z
}.

Record Db := mkDb {
  ohlcv : list Candle;
  trades : list Trade;
  trades_seq : Z;
  positions : gmap string Position;
  account : option Account;
  equity_history : list (Z * Q)
}.

Inductive exn := ZeroDivisionError | OverflowError | TypeError.

Inductive outcome (A : Type) :=
| Ok (a : A)
| Raise (e : exn).
Arguments Ok {A} a.
Arguments Raise {A} e.

Definition M (A : Type) : Type := Db -> outcome A * Db.

Definition ret {A} (a : A) : M A := fun db => (Ok a, db).

Definition bind {A B} (m : M A) (k : A -> M B) : M B :=
  fun db =>
    match m db with
    | (Ok a, db') => k a db'
    | (Raise e, db') => (Raise e, db')
    end.

Definition raise {A} (e : exn) : M A := fun db => (Raise e, db).

Definition gets {A} (f : Db -> A) : M A := fun db => (Ok (f db), db).

Definition modify (f : Db -> Db) : M unit := fun db => (Ok tt, f db).

#[global] Instance M_ret : MRet M := @ret.
#[global] Instance M_bind : MBind M := fun A B k m => bind m k.

(** Python's [x / y] on floats. *)
Definition float_div (x y : Q) : M Q :=
  if Qeq_bool y 0 then raise ZeroDivisionError else ret (x / y).

Module database.

(** [SELECT close FROM ohlcv WHERE symbol = ? ORDER BY timestamp DESC
    LIMIT 1]: the row of [symbol] with the greatest timestamp. *)
Definition newer (c : Candle) (best : option Candle) : option Candle :=
  match best with
  | None => Some c
  | Some b => if (c_timestamp b <? c_timestamp c)%Z then Some c else Some b
  end.

Definition latest_row (symbol : string) (rows : list Candle) : option Candle :=
  foldr (fun c best => if String.eqb (c_symbol c) symbol
                       then newer c best else best) None rows.

Definition get_latest_price (symbol : string) : M (option Q) :=
  gets (fun db => c_close <$> latest_row symbol (ohlcv db)).

Definition log_trade (now : Z) (symbol : string) (side : Side)
    (amount price fee pnl : Q) : M Z :=
  fun db =>
    let trade_id := (trades_seq db + 1)%Z in
    (Ok trade_id,
     mkDb (ohlcv db)
          (trades db ++ [mkTrade trade_id symbol side amount price fee now pnl])
          trade_id (positions db) (account db) (equity_history db)).

Definition get_position (symbol : string) : M (option Position) :=
  gets (fun db => positions db !! symbol).

Definition update_position (symbol : string) (amount avg_entry_price : Q)
    : M unit :=
  modify (fun db =>
    mkDb (ohlcv db) (trades db) (trades_seq db)
         (if Qle_bool amount 0
          then delete symbol (positions db)
          else <[symbol := mkPosition amount avg_entry_price 0]> (positions db))
         (account db) (equity_history db)).

(** [SELECT * FROM positions WHERE amount > 0]. *)
Definition get_all_positions : M (list (string * Position)) :=
  gets (fun db =>
    List.filter (fun sp => Qltb 0 (amount (snd sp)))
                (map_to_list (positions db))).

Definition get_account : M (option Account) := gets account.

Definition update_account (now : Z) (cash_balance total_equity : Q) : M unit :=
  modify (fun db =>
    mkDb (ohlcv db) (trades db) (trades_seq db) (positions db)
         (Some (mkAccount cash_balance total_equity now))
         (equity_history db)).

(** [DELETE FROM] each table; the AUTOINCREMENT counter of [trades] is
    not a row of it and stays. *)
Definition reset_database : M unit :=
  modify (fun db => mkDb [] [] (trades_seq db) ∅ None []).

Definition initialize_account (now : Z) (starting_balance : Q) : M unit :=
  a ← get_account;
  match a with
  | None => update_account now starting_balance starting_balance
  | Some _ => ret tt
  end.

(** A candle as the exchange hands it to [save_ohlcv]:
    [[timestamp, open, high, low, close, volume]]. *)
Definition raw_candle : Type := Z * Q * Q * Q * Q * Q.

Definition to_candle (symbol : string) (c : raw_candle) : Candle :=
  match c with
  | (timestamp, open_price, high, low, close, volume) =>
      mkCandle symbol timestamp open_price high low close volume
  end.

(** The UNIQUE(symbol, timestamp) key of the [ohlcv] table. *)
Definition same_key (c d : Candle) : bool :=
  String.eqb (c_symbol c) (c_symbol d) && (c_timestamp c =? c_timestamp d)%Z.

(** [INSERT OR REPLACE INTO ohlcv]: the row with the same key goes, the new
    row is added. *)
Definition insert_or_replace (rows : list Candle) (c : Candle) : list Candle :=
  List.filter (fun d => negb (same_key c d)) rows ++ [c].

(** A Python [int] bound to a SQL parameter must fit SQLite's signed
    64-bit INTEGER; [sqlite3] raises [OverflowError] otherwise. *)
Definition in_int64 (z : Z) : bool :=
  (-9223372036854775808 <=? z)%Z && (z <=? 9223372036854775807)%Z.

(** [save_ohlcv]: the rows are written one by one and committed together
    after the loop, so a timestamp that does not fit raises before the
    commit and nothing of the batch is stored. *)
Definition save_ohlcv (symbol : string) (candles : list raw_candle) : M nat :=
  let rows := List.map (to_candle symbol) candles in
  if forallb (fun c => in_int64 (c_timestamp c)) rows then
    fun db =>
      (Ok (length candles),
       mkDb (fold_left insert_or_replace rows (ohlcv db))
            (trades db) (trades_seq db) (positions db) (account db)
            (equity_history db))
  else raise OverflowError.

(** [ORDER BY]: rows are sorted on the key and rows with equal keys stay
    in the order of the table (the order of insertion).  [before x y] says
    that [x] may precede [y]. *)
Fixpoint insert_by {A} (before : A -> A -> bool) (x : A) (l : list A)
    : list A :=
  match l with
  | [] => [x]
  | y :: l' => if before x y then x :: y :: l' else y :: insert_by before x l'
  end.

Definition order_by {A} (before : A -> A -> bool) (l : list A) : list A :=
  foldr (insert_by before) [] l.

(** [LIMIT ?]: a negative bound means no bound. *)
Definition sql_limit {A} (limit : Z) (l : list A) : list A :=
  if (limit <? 0)%Z then l else take (Z.to_nat limit) l.

(** [ORDER BY timestamp DESC] on trades. *)
Definition newest_first (t1 t2 : Trade) : Prop :=
  (t_timestamp t2 <= t_timestamp t1)%Z.

#[global] Instance newest_first_dec t1 t2 : Decision (newest_first t1 t2) :=
  Z_le_dec (t_timestamp t2) (t_timestamp t1).

(** [get_trades]: [if symbol:] filters for a non-empty symbol only; the
    bound [limit] is a SQL parameter. *)
Definition get_trades (symbol : option string) (limit : Z) : M (list Trade) :=
  if in_int64 limit then
    gets (fun db =>
      let selected :=
        match symbol with
        | Some s =>
            if String.eqb s EmptyString then trades db
            else List.filter (fun t => String.eqb (t_symbol t) s) (trades db)
        | None => trades db
        end in
      sql_limit limit
        (order_by (fun t1 t2 => bool_decide (newest_first t1 t2)) selected))
  else raise OverflowError.

Definition record_equity (now : Z) (equity : Q) : M unit :=
  modify (fun db =>
    mkDb (ohlcv db) (trades db) (trades_seq db) (positions db) (account db)
         (equity_history db ++ [(now, equity)])).

(** [ORDER BY timestamp ASC] on equity snapshots. *)
Definition oldest_first (e1 e2 : Z * Q) : Prop := (fst e1 <= fst e2)%Z.

#[global] Instance oldest_first_dec e1 e2 : Decision (oldest_first e1 e2) :=
  Z_le_dec (fst e1) (fst e2).

Definition get_equity_history : M (list (Z * Q)) :=
  gets (fun db =>
    order_by (fun e1 e2 => bool_decide (oldest_first e1 e2))
      (equity_history db)).

End database.

(** ** account.py *)

Record PaperAccount := mkPaperAccount {
  starting_balance : Q;
  fee_percent : Q
}.

(** The dict returned by [get_account_info]. *)
Record AccountInfo := mkAccountInfo {
  info_cash_balance : Q;
  info_total_equity : Q;
  info_positions : list (string * Position);
  info_last_updated : Z
}.

Module account_py.

(** [PaperAccount.__init__]: [starting_balance or config.STARTING_BALANCE_USDT],
    the fee as a fraction, and the account row created when absent. *)
Definition init (now : Z) (starting_balance : option Q) : M PaperAccount :=
  let sb := match starting_balance with
            | Some b => if truthy b then b else config.STARTING_BALANCE_USDT
            | None => config.STARTING_BALANCE_USDT
            end in
  database.initialize_account now sb;;
  mret (mkPaperAccount sb (config.TRADING_FEE_PERCENT / 100)).

(** [get_account_info]: the account row, created first when it is absent,
    and the open positions.  Subscripting [None] raises [TypeError]. *)
Definition get_account_info (self : PaperAccount) (now : Z) : M AccountInfo :=
  a ← database.get_account;
  a ← match a with
      | None =>
          database.initialize_account now (starting_balance self);;
          database.get_account
      | Some _ => mret a
      end;
  ps ← database.get_all_positions;
  match a with
  | Some acc =>
      mret (mkAccountInfo (cash_balance acc) (total_equity acc) ps
              (last_updated acc))
  | None => raise TypeError
  end.

Definition get_cash_balance (self : PaperAccount) : M Q :=
  a ← database.get_account;
  mret (match a with Some acc => cash_balance acc | None => 0 end).

Definition get_position (self : PaperAccount) (symbol : string)
    : M (option Position) :=
  database.get_position symbol.

Definition get_all_positions (self : PaperAccount)
    : M (list (string * Position)) :=
  database.get_all_positions.

Definition calculate_fee (self : PaperAccount) (amount_usdt : Q) : Q :=
  amount_usdt * fee_percent self.

Definition can_afford (self : PaperAccount) (amount_usdt : Q) : M bool :=
  let fee := calculate_fee self amount_usdt in
  let total_cost := amount_usdt + fee in
  cash ← get_cash_balance self;
  mret (Qle_bool total_cost cash).

(** The loop body of [calculate_total_equity]; [if current_price:] is
    false for [None] and for [0.0]. *)
Fixpoint positions_value (ps : list (string * Position)) (acc : Q) : M Q :=
  match ps with
  | [] => mret acc
  | (symbol, position) :: rest =>
      current_price ← database.get_latest_price symbol;
      positions_value rest
        (match current_price with
         | Some p =>
             if truthy p then acc + amount position * p
             else acc + amount position * avg_entry_price position
         | None => acc + amount position * avg_entry_price position
         end)
  end.

Definition calculate_total_equity (self : PaperAccount)
    (cash_balance : option Q) : M Q :=
  cash ← match cash_balance with
         | Some c => mret c
         | None => get_cash_balance self
         end;
  ps ← get_all_positions self;
  v ← positions_value ps 0;
  mret (cash + v).

Definition update_cash_balance (self : PaperAccount) (now : Z)
    (new_balance : Q) : M unit :=
  total_equity ← calculate_total_equity self (Some new_balance);
  database.update_account now new_balance total_equity.

Definition update_position (self : PaperAccount) (now : Z) (symbol : string)
    (amount avg_entry_price : Q) : M unit :=
  database.update_position symbol amount avg_entry_price;;
  cash ← get_cash_balance self;
  total_equity ← calculate_total_equity self (Some cash);
  database.update_account now cash total_equity.

Definition calculate_unrealized_pnl (self : PaperAccount) (symbol : string)
    (current_price : Q) : M Q :=
  position ← get_position self symbol;
  match position with
  | None => mret 0
  | Some position =>
      let entry_value := amount position * avg_entry_price position in
      let current_value := amount position * current_price in
      mret (current_value - entry_value)
  end.

Definition record_equity_snapshot (self : PaperAccount) (now : Z) : M Q :=
  equity ← calculate_total_equity self None;
  database.record_equity now equity;;
  mret equity.

Definition get_trade_history (self : PaperAccount) (symbol : option string)
    (limit : Z) : M (list Trade) :=
  database.get_trades symbol limit.

Definition reset_account (self : PaperAccount) (now : Z) : M unit :=
  database.reset_database;;
  database.initialize_account now (starting_balance self).

End account_py.

(** ** executor.py *)

Inductive Error :=
| TradeAmountMustBePositive
| SellAmountMustBePositive
| NoPriceData (symbol : string)
| InsufficientBalance (have need : Q)
| NoPosition (symbol : string)
| InsufficientPosition (symbol : string) (have want : Q).

Record BuyFill := mkBuyFill {
  b_trade_id : Z;
  b_symbol : string;
  b_amount : Q;
  b_price : Q;
  b_cost : Q;
  b_fee : Q;
  b_total_cost : Q;
  b_timestamp : Z
}.

Record SellFill := mkSellFill {
  s_trade_id : Z;
  s_symbol : string;
  s_amount : Q;
  s_price : Q;
  s_gross_proceeds : Q;
  s_fee : Q;
  s_net_proceeds : Q;
  s_pnl : Q;
  s_timestamp : Z
}.

(** The result dict: ['success': False] with its error, or the fill. *)
Inductive TradeResult :=
| Failure (error : Error) (symbol : string) (side : Side)
| Bought (fill : BuyFill)
| Sold (fill : SellFill).

Definition success (r : TradeResult) : bool :=
  match r with
  | Failure _ _ _ => false
  | _ => true
  end.

(** [self.account] of a [TradeExecutor]. *)
Record TradeExecutor := mkTradeExecutor { acct : PaperAccount }.

Definition epsilon : Q := 1 # 1000000.

Module executor.

Definition get_current_price (self : TradeExecutor) (symbol : string)
    : M (option Q) :=
  database.get_latest_price symbol.

Definition market_buy (self : TradeExecutor) (now : Z) (symbol : string)
    (amount_usdt : Q) : M TradeResult :=
  let timestamp := now in
  if Qle_bool amount_usdt 0
  then mret (Failure TradeAmountMustBePositive symbol buy)
  else
    price ← get_current_price self symbol;
    match price with
    | None => mret (Failure (NoPriceData symbol) symbol buy)
    | Some price =>
        let fee := account_py.calculate_fee (acct self) amount_usdt in
        let total_cost := amount_usdt + fee in
        affordable ← account_py.can_afford (acct self) amount_usdt;
        if negb affordable
        then
          cash ← account_py.get_cash_balance (acct self);
          mret (Failure (InsufficientBalance cash total_cost) symbol buy)
        else
          crypto_amount ← float_div amount_usdt price;
          existing_position ← account_py.get_position (acct self) symbol;
          match existing_position with
          | Some existing =>
              let old_amount := amount existing in
              let old_avg_price := avg_entry_price existing in
              let old_cost := old_amount * old_avg_price in
              let new_amount := old_amount + crypto_amount in
              new_avg_price ← float_div (old_cost + amount_usdt) new_amount;
              account_py.update_position (acct self) now symbol
                new_amount new_avg_price
          | None =>
              account_py.update_position (acct self) now symbol
                crypto_amount price
          end;;
          cash ← account_py.get_cash_balance (acct self);
          account_py.update_cash_balance (acct self) now (cash - total_cost);;
          trade_id ← database.log_trade now symbol buy crypto_amount price fee 0;
          mret (Bought (mkBuyFill trade_id symbol crypto_amount price
                          amount_usdt fee total_cost timestamp))
    end.

Definition market_sell (self : TradeExecutor) (now : Z) (symbol : string)
    (amount_crypto : Q) : M TradeResult :=
  let timestamp := now in
  if Qle_bool amount_crypto 0
  then mret (Failure SellAmountMustBePositive symbol sell)
  else
    position ← account_py.get_position (acct self) symbol;
    match position with
    | None => mret (Failure (NoPosition symbol) symbol sell)
    | Some position =>
        if Qltb (amount position) amount_crypto
        then mret (Failure (InsufficientPosition symbol (amount position)
                              amount_crypto) symbol sell)
        else
          price ← get_current_price self symbol;
          match price with
          | None => mret (Failure (NoPriceData symbol) symbol sell)
          | Some price =>
              let gross_proceeds := amount_crypto * price in
              let fee := account_py.calculate_fee (acct self) gross_proceeds in
              let net_proceeds := gross_proceeds - fee in
              let entry_cost := amount_crypto * avg_entry_price position in
              let realized_pnl := net_proceeds - entry_cost in
              let new_amount := amount position - amount_crypto in
              (if Qle_bool new_amount epsilon
               then account_py.update_position (acct self) now symbol 0 0
               else account_py.update_position (acct self) now symbol
                      new_amount (avg_entry_price position));;
              cash ← account_py.get_cash_balance (acct self);
              account_py.update_cash_balance (acct self) now
                (cash + net_proceeds);;
              trade_id ← database.log_trade now symbol sell amount_crypto
                            price fee realized_pnl;
              mret (Sold (mkSellFill trade_id symbol amount_crypto price
                            gross_proceeds fee net_proceeds realized_pnl
                            timestamp))
          end
    end.

Definition sell_all (self : TradeExecutor) (now : Z) (symbol : string)
    : M TradeResult :=
  position ← account_py.get_position (acct self) symbol;
  match position with
  | None => mret (Failure (NoPosition symbol) symbol sell)
  | Some position => market_sell self now symbol (amount position)
  end.

Definition get_position_value (self : TradeExecutor) (symbol : string)
    : M (Q * Q) :=
  position ← account_py.get_position (acct self) symbol;
  match position with
  | None => mret (0, 0)
  | Some position =>
      price ← get_current_price self symbol;
      let price := match price with
                   | Some p => p
                   | None => avg_entry_price position
                   end in
      let current_value := amount position * price in
      let entry_value := amount position * avg_entry_price position in
      let unrealized_pnl := current_value - entry_value in
      mret (current_value, unrealized_pnl)
  end.

End executor.

(** ** strategies/base_strategy.py and strategies/rsi_ema_strategy.py *)

(** A DataFrame cell: a float, or NaN / missing ([pd.isna]). *)
Inductive cell :=
| Num (x : Q)
| NaN.

Definition isna (c : cell) : bool :=
  match c with
  | Num _ => false
  | NaN => true
  end.

(** [a > b] on floats: false as soon as one side is NaN. *)
Definition cell_gt (a b : cell) : bool :=
  match a, b with
  | Num x, Num y => Qltb y x
  | _, _ => false
  end.

(** A DataFrame: its column labels and its rows, oldest first; a row maps
    a label to its cell. *)
Record DataFrame := mkDataFrame {
  columns : list string;
  rows : list (gmap string cell)
}.

Definition len (df : DataFrame) : nat := length (rows df).

(** [df.iloc[-k]] for [1 <= k <= len(df)]. *)
Definition iloc_neg (df : DataFrame) (k : nat) : gmap string cell :=
  default ∅ (rows df !! (len df - k)%nat).

(** [row[col]] for a label of [df.columns]. *)
Definition getitem (row : gmap string cell) (col : string) : cell :=
  default NaN (row !! col).

Inductive Signal := BUY | SELL | HOLD.

Inductive Crossover := bullish | bearish.

Inductive Trend := trend_bullish | trend_bearish.

(** The [reason] strings, by the branch that builds them. *)
Inductive Reason :=
| InsufficientData
| MissingIndicators (missing : list string)
| IndicatorsNotAvailable
| RsiOversold (rsi : Q)
| RsiOverbought (rsi : Q)
| BearishCrossNeutralRsi (rsi : Q)
| HoldingPosition (trend : Trend) (rsi : Q)
| NoPositionHeld (trend : Trend) (rsi : Q).

Record StrategyResult := mkStrategyResult {
  signal : Signal;
  confidence : Q;
  reason : Reason;
  indicators : list (string * cell)
}.

Record RsiEmaStrategy := mkRsiEmaStrategy {
  rsi_oversold : Q;
  rsi_overbought : Q;
  _last_crossover : option Crossover
}.

Module rsi_ema_strategy.

(** [x or default] on an optional float argument. *)
Definition or_default (x : option Q) (d : Q) : Q :=
  match x with
  | Some v => if truthy v then v else d
  | None => d
  end.

Definition init (rsi_oversold rsi_overbought : option Q) : RsiEmaStrategy :=
  mkRsiEmaStrategy (or_default rsi_oversold config.RSI_OVERSOLD)
                   (or_default rsi_overbought config.RSI_OVERBOUGHT)
                   None.

Definition required : list string := ["close"; "rsi"; "ema_fast"; "ema_slow"].

Definition missing_columns (df : DataFrame) : list string :=
  List.filter (fun col => negb (bool_decide (col ∈ columns df))) required.

Definition set_last_crossover (self : RsiEmaStrategy) (c : option Crossover)
    : RsiEmaStrategy :=
  mkRsiEmaStrategy (rsi_oversold self) (rsi_overbought self) c.

Definition last_is (self : RsiEmaStrategy) (c : Crossover) : bool :=
  match _last_crossover self, c with
  | Some bullish, bullish => true
  | Some bearish, bearish => true
  | _, _ => false
  end.

Definition bullish_crossover (prev_above current_above : bool) : bool :=
  negb prev_above && current_above.

Definition bearish_crossover (prev_above current_above : bool) : bool :=
  prev_above && negb current_above.

(** [analyze]; the strategy object is returned with the result, since the
    call may overwrite [_last_crossover]. *)
Definition analyze (self : RsiEmaStrategy) (df : DataFrame)
    (position : option Position) : StrategyResult * RsiEmaStrategy :=
  if (len df <? 3)%nat
  then (mkStrategyResult HOLD 0 InsufficientData [], self)
  else
    let missing := missing_columns df in
    match missing with
    | _ :: _ => (mkStrategyResult HOLD 0 (MissingIndicators missing) [], self)
    | [] =>
        let current := iloc_neg df 1 in
        let previous := iloc_neg df 2 in
        let prev_ema_fast := getitem previous "ema_fast" in
        let prev_ema_slow := getitem previous "ema_slow" in
        let close_price := getitem current "close" in
        match getitem current "rsi", getitem current "ema_fast",
              getitem current "ema_slow" with
        | Num rsi, Num ema_fast, Num ema_slow =>
            let indicators :=
              [("rsi", Num rsi); ("ema_fast", Num ema_fast);
               ("ema_slow", Num ema_slow); ("close", close_price)] in
            let current_above := Qltb ema_slow ema_fast in
            let prev_above := cell_gt prev_ema_fast prev_ema_slow in
            let bullish_crossover := bullish_crossover prev_above current_above in
            let bearish_crossover := bearish_crossover prev_above current_above in
            let self :=
              if bullish_crossover then set_last_crossover self (Some bullish)
              else if bearish_crossover then set_last_crossover self (Some bearish)
              else self in
            let is_oversold := Qltb rsi (rsi_oversold self) in
            let ema_bullish := current_above || last_is self bullish in
            if is_oversold && ema_bullish && negb (bool_decide (is_Some position))
            then
              (mkStrategyResult BUY
                 (Qmin 100 ((rsi_oversold self - rsi) * 3 + 50))
                 (RsiOversold rsi) indicators, self)
            else
              let is_overbought := Qltb (rsi_overbought self) rsi in
              let ema_bearish := negb current_above || last_is self bearish in
              if is_overbought && ema_bearish && bool_decide (is_Some position)
              then
                (mkStrategyResult SELL
                   (Qmin 100 ((rsi - rsi_overbought self) * 3 + 50))
                   (RsiOverbought rsi) indicators, self)
              else
                if bool_decide (is_Some position) && bearish_crossover
                   && Qltb 50 rsi
                then
                  (mkStrategyResult SELL 60 (BearishCrossNeutralRsi rsi)
                     indicators, self)
                else
                  let trend := if current_above then trend_bullish
                               else trend_bearish in
                  (mkStrategyResult HOLD 50
                     (if bool_decide (is_Some position)
                      then HoldingPosition trend rsi
                      else NoPositionHeld trend rsi)
                     indicators, self)
        | _, _, _ =>
            (mkStrategyResult HOLD 0 IndicatorsNotAvailable [], self)
        end
    end.

Definition reset (self : RsiEmaStrategy) : RsiEmaStrategy :=
  set_last_crossover self None.

(** [on_trade_executed] prints and keeps the strategy as it is. *)
Definition on_trade_executed (self : RsiEmaStrategy) (trade_result : TradeResult)
    : RsiEmaStrategy := self.

End rsi_ema_strategy.

(** ** indicators.py: the crossover helper *)

Module indicators_py.

(** [detect_ema_crossover]; the strings ['bullish'], ['bearish'] and
    ['none'] are [Some bullish], [Some bearish] and [None]. *)
Definition detect_ema_crossover (df : DataFrame) : option Crossover :=
  if (len df <? 2)%nat then None
  else if negb (bool_decide ("ema_fast" ∈ columns df))
          || negb (bool_decide ("ema_slow" ∈ columns df)) then None
  else
    let current_fast := getitem (iloc_neg df 1) "ema_fast" in
    let current_slow := getitem (iloc_neg df 1) "ema_slow" in
    let prev_fast := getitem (iloc_neg df 2) "ema_fast" in
    let prev_slow := getitem (iloc_neg df 2) "ema_slow" in
    match current_fast, current_slow with
    | Num current_fast, Num current_slow =>
        match prev_fast, prev_slow with
        | Num prev_fast, Num prev_slow =>
            if Qle_bool prev_fast prev_slow && Qltb current_slow current_fast
            then Some bullish
            else if Qle_bool prev_slow prev_fast
                    && Qltb current_fast current_slow
            then Some bearish
            else None
        | _, _ => None
        end
    | _, _ => None
    end.

End indicators_py.

(** ** analytics.py: the figures computed from the store *)

Record PerformanceAnalytics := mkPerformanceAnalytics {
  pa_starting_balance : Q
}.

Module analytics_py.

Definition init (starting_balance : option Q) : PerformanceAnalytics :=
  mkPerformanceAnalytics
    (match starting_balance with
     | Some b => if truthy b then b else config.STARTING_BALANCE_USDT
     | None => config.STARTING_BALANCE_USDT
     end).

Definition get_total_return (self : PerformanceAnalytics) : M (Q * Q) :=
  a ← database.get_account;
  match a with
  | None => mret (0, 0)
  | Some a =>
      let current_equity := total_equity a in
      let absolute_return := current_equity - pa_starting_balance self in
      ratio ← float_div absolute_return (pa_starting_balance self);
      mret (absolute_return, ratio * 100)
  end.

Definition is_sell (t : Trade) : bool :=
  match t_side t with
  | sell => true
  | buy => false
  end.

Definition get_win_rate (self : PerformanceAnalytics) : M (Q * nat * nat) :=
  trades ← database.get_trades None 10000;
  let sells := List.filter is_sell trades in
  match sells with
  | [] => mret (0, 0%nat, 0%nat)
  | _ :: _ =>
      let winning_trades := length (List.filter (fun t => Qltb 0 (t_pnl t)) sells) in
      let total_trades := length sells in
      mret (inject_Z (Z.of_nat winning_trades) / inject_Z (Z.of_nat total_trades)
            * 100,
            winning_trades, total_trades)
  end.

(** The state of the loop of [get_max_drawdown]:
    [(peak, max_drawdown, max_drawdown_abs)]. *)
Definition drawdown_step (st : Q * Q * Q) (equity : Q) : Q * Q * Q :=
  match st with
  | (peak, max_drawdown, max_drawdown_abs) =>
      let peak := if Qltb peak equity then equity else peak in
      let drawdown := peak - equity in
      let drawdown_pct := if Qltb 0 peak then drawdown / peak * 100 else 0 in
      if Qltb max_drawdown drawdown_pct
      then (peak, drawdown_pct, drawdown)
      else (peak, max_drawdown, max_drawdown_abs)
  end.

Definition get_max_drawdown (self : PerformanceAnalytics) : M (Q * Q) :=
  equity_history ← database.get_equity_history;
  if (length equity_history <? 2)%nat then mret (0, 0)
  else
    let equities := List.map snd equity_history in
    match equities with
    | [] => mret (0, 0)
    | first :: _ =>
        match fold_left drawdown_step equities (first, 0, 0) with
        | (_, max_drawdown, max_drawdown_abs) =>
            mret (max_drawdown, max_drawdown_abs)
        end
    end.

End analytics_py.

(** ** main.py: acting on a signal *)

(** The parts of a [PaperTradingBot] that a trading step uses. *)
Record PaperTradingBot := mkPaperTradingBot {
  bot_symbol : string;
  trade_amount : Q;
  bot_executor : TradeExecutor;
  bot_strategy : RsiEmaStrategy
}.

Module main_py.

(** [self.account] and [self.executor.account] are the same object. *)
Definition bot_account (self : PaperTradingBot) : PaperAccount :=
  acct (bot_executor self).

(** [execute_signal]; [None] is "no trade".  The notification of the
    strategy after a fill only prints. *)
Definition execute_signal (self : PaperTradingBot) (now : Z) (signal : Signal)
    : M (option TradeResult) :=
  match signal with
  | HOLD => mret None
  | BUY =>
      position ← account_py.get_position (bot_account self) (bot_symbol self);
      match position with
      | None =>
          result ← executor.market_buy (bot_executor self) now (bot_symbol self)
                     (trade_amount self);
          mret (Some result)
      | Some _ => mret None
      end
  | SELL =>
      position ← account_py.get_position (bot_account self) (bot_symbol self);
      match position with
      | Some _ =>
          result ← executor.sell_all (bot_executor self) now (bot_symbol self);
          mret (Some result)
      | None => mret None
      end
  end.

End main_py.

(** ** Pure readings of the store, used to state the results *)

(** What [get_cash_balance] reads. *)
Definition cash_of (db : Db) : Q :=
  match account db with
  | Some acc => cash_balance acc
  | None => 0
  end.

(** What [get_latest_price] reads. *)
Definition price_of (symbol : string) (db : Db) : option Q :=
  c_close <$> database.latest_row symbol (ohlcv db).

(** The price a position is marked at in [calculate_total_equity]. *)
Definition mark_price (db : Db) (symbol : string) (position : Position) : Q :=
  match price_of symbol db with
  | Some p => if truthy p then p else avg_entry_price position
  | None => avg_entry_price position
  end.

Definition holdings_value (db : Db) (ps : list (string * Position)) (acc : Q) : Q :=
  fold_left (fun acc sp => acc + amount (snd sp) * mark_price db (fst sp) (snd sp))
            ps acc.

Definition open_positions (db : Db) : list (string * Position) :=
  List.filter (fun sp => Qltb 0 (amount (snd sp))) (map_to_list (positions db)).

Definition equity_of (cash : Q) (db : Db) : Q :=
  cash + holdings_value db (open_positions db) 0.

Definition set_positions (ps : gmap string Position) (db : Db) : Db :=
  mkDb (ohlcv db) (trades db) (trades_seq db) ps (account db) (equity_history db).

Definition set_account (a : Account) (db : Db) : Db :=
  mkDb (ohlcv db) (trades db) (trades_seq db) (positions db) (Some a)
       (equity_history db).

(** The [positions] table after [database.update_position]. *)
Definition store_position (symbol : string) (amount avg_entry_price : Q)
    (ps : gmap string Position) : gmap string Position :=
  if Qle_bool amount 0 then delete symbol ps
  else <[symbol := mkPosition amount avg_entry_price 0]> ps.

(** The market data refreshed between two ticks; the ledger tables stay. *)
Definition set_ohlcv (candles : list Candle) (db : Db) : Db :=
  mkDb candles (trades db) (trades_seq db) (positions db) (account db)
       (equity_history db).

(** The outcome of a request that was turned down. *)
Definition rejected (o : outcome TradeResult) : bool :=
  match o with
  | Ok (Failure _ _ _) => true
  | _ => false
  end.

(** ** Invariants and end states of the ledger *)

(** No row of [positions] holds a zero or negative amount. *)
Definition positive_positions (db : Db) : Prop :=
  forall symbol pos, positions db !! symbol = Some pos -> 0 < amount pos.

(** The stored total equity is the cash plus the positions at their
    current marks. *)
Definition equity_fresh (db : Db) : Prop :=
  exists a, account db = Some a
            /\ total_equity a = equity_of (cash_balance a) db.

(** The [positions] table after a filled buy of [q] at [p]. *)
Definition buy_positions (symbol : string) (q p : Q)
    (ps : gmap string Position) : gmap string Position :=
  match ps !! symbol with
  | Some existing =>
      store_position symbol (amount existing + q / p)
        ((amount existing * avg_entry_price existing + q)
         / (amount existing + q / p)) ps
  | None => store_position symbol (q / p) p ps
  end.

(** The [positions] table after a filled sell of [base] out of [pos]. *)
Definition sell_positions (symbol : string) (base : Q) (pos : Position)
    (ps : gmap string Position) : gmap string Position :=
  if Qle_bool (amount pos - base) epsilon
  then store_position symbol 0 0 ps
  else store_position symbol (amount pos - base) (avg_entry_price pos) ps.

(** The store after a fill: the positions written, the cash and the equity
    written, the trade logged under the next id. *)
Definition settle (now : Z) (ps : gmap string Position) (cash : Q)
    (trade : Z -> Trade) (db : Db) : Db :=
  mkDb (ohlcv db)
       (trades db ++ [trade (trades_seq db + 1)%Z])
       (trades_seq db + 1)%Z
       ps
       (Some (mkAccount cash (equity_of cash (set_positions ps db)) now))
       (equity_history db).

(** The equity snapshots in the order [get_equity_history] returns them,
    the equities only. *)
Definition equity_curve (db : Db) : list Q :=
  List.map snd
    (database.order_by
       (fun e1 e2 => bool_decide (database.oldest_first e1 e2))
       (equity_history db)).

(** ** Sequences of buys on one symbol *)

(** One tick of the trading loop that ends in a filled buy: fresh candles
    are cached, the oracle quotes [p], and [market_buy symbol q] is filled.
    A run is the list of the [(p, q)] of its ticks. *)
Inductive buy_run (self : TradeExecutor) (symbol : string)
  : Db -> list (Q * Q) -> Db -> Prop :=
| buy_run_nil db : buy_run self symbol db [] db
| buy_run_cons db candles now p q fill db1 steps db2 :
    price_of symbol (set_ohlcv candles db) = Some p ->
    executor.market_buy self now symbol q (set_ohlcv candles db)
      = (Ok (Bought fill), db1) ->
    buy_run self symbol db1 steps db2 ->
    buy_run self symbol db ((p, q) :: steps) db2.

Definition total_quote (steps : list (Q * Q)) : Q :=
  fold_right (fun pq acc => snd pq + acc) 0 steps.

(** The position a first buy [(p, q)] opens, and the position a further
    buy makes of [old], with the expressions of [market_buy]. *)
Definition opened (pq : Q * Q) : Position :=
  mkPosition (snd pq / fst pq) (fst pq) 0.

Definition averaged_in (old : Position) (pq : Q * Q) : Position :=
  let crypto_amount := snd pq / fst pq in
  let new_amount := amount old + crypto_amount in
  mkPosition new_amount
    ((amount old * avg_entry_price old + snd pq) / new_amount) 0.

(** The average of the entry prices weighted by the quote amounts, as the
    specification words it: sum of [q * p] over sum of [q]. *)
Definition quote_weighted_average (steps : list (Q * Q)) : Q :=
  fold_right (fun pq acc => snd pq * fst pq + acc) 0 steps / total_quote steps.

(** ** [can_afford] on binary64 doubles

    The comparison of [can_afford] sits at the boundary where rounding
    decides, so it is also given on IEEE doubles, operation for
    operation, next to the condition as the specification words it. *)

Definition can_afford_binary64 (fee_percent cash amount_usdt : float) : bool :=
  let fee := PrimFloat.mul amount_usdt fee_percent in
  let total_cost := PrimFloat.add amount_usdt fee in
  PrimFloat.leb total_cost cash.

Definition spec_can_afford_binary64 (fee_rate cash trade_value : float) : bool :=
  PrimFloat.leb
    (PrimFloat.mul trade_value (PrimFloat.add 1%float fee_rate)) cash.

(** [config.TRADING_FEE_PERCENT / 100] on doubles. *)
Definition fee_percent_binary64 : float := PrimFloat.div 0.1%float 100%float.

(** ** Crossover conditions as the specification words them *)

Definition spec_bullish (prev_fast prev_slow curr_fast curr_slow : Q) : Prop :=
  prev_fast <= prev_slow /\ curr_slow < curr_fast.

Definition spec_bearish (prev_fast prev_slow curr_fast curr_slow : Q) : Prop :=
  prev_slow <= prev_fast /\ curr_fast < curr_slow.

(** The soft failure of [analyze]: HOLD with confidence 0. *)
Definition soft_failure (r : StrategyResult) : Prop :=
  signal r = HOLD /\ confidence r == 0.

(** The latest two rows of a frame carry a number in each required column. *)
Definition latest_two_present (df : DataFrame) : Prop :=
  forall k col, (k = 1 \/ k = 2)%nat -> col ∈ rsi_ema_strategy.required ->
    isna (getitem (iloc_neg df k) col) = false.

(** ** Sample stores and objects *)

Definition btc : string := "BTC/USD".

(** The stock account object: config balance, fee 0.1 percent. *)
Definition paper : PaperAccount :=
  mkPaperAccount config.STARTING_BALANCE_USDT (config.TRADING_FEE_PERCENT / 100).

Definition trader : TradeExecutor := mkTradeExecutor paper.

(** A store right after [reset_database]: every table empty. *)
Definition db_empty : Db := mkDb [] [] 0 ∅ None [].

(** A funded account, no position, BTC quoted at 50,000. *)
Definition db_funded : Db :=
  mkDb [mkCandle btc 1 50000 50000 50000 50000 1] [] 0 ∅
       (Some (mkAccount 10000 10000 0)) [].

Definition candle_at (ts : Z) (close : Q) : Candle :=
  mkCandle btc ts close close close close 1.

(** A funded account with no market data yet. *)
Definition db_cash : Db := mkDb [] [] 0 ∅ (Some (mkAccount 10000 10000 0)) [].

(** Two ticks: 100 spent at price 1, then 100 spent at price 2. *)
Definition two_buys : list (Q * Q) := [(1, 100); (2, 100)].

Definition db_after_first : Db :=
  snd (executor.market_buy trader 1 btc 100 (set_ohlcv [candle_at 1 1] db_cash)).

Definition db_after_second : Db :=
  snd (executor.market_buy trader 2 btc 100
         (set_ohlcv [candle_at 2 2] db_after_first)).

(** A store holding 0.02 BTC bought at 50,000. *)
Definition db_holding : Db :=
  mkDb [mkCandle btc 1 50000 50000 50000 50000 1] [] 0
       {[ btc := mkPosition (1 # 50) 50000 0 ]}
       (Some (mkAccount 8999 9999 0)) [].

(** Sample frames with the four required columns. *)
Definition row (close rsi ema_fast ema_slow : cell) : gmap string cell :=
  <["close" := close]> (<["rsi" := rsi]> (<["ema_fast" := ema_fast]>
    (<["ema_slow" := ema_slow]> ∅))).

Definition frame (rs : list (gmap string cell)) : DataFrame :=
  mkDataFrame ["close"; "rsi"; "ema_fast"; "ema_slow"] rs.

Definition stock_strategy : RsiEmaStrategy := rsi_ema_strategy.init None None.

(** The averages are level, then the fast one falls below the slow one. *)
Definition df_level_then_below : DataFrame :=
  frame [row (Num 10) (Num 50) (Num 1) (Num 1);
         row (Num 10) (Num 50) (Num 1) (Num 1);
         row (Num 10) (Num 50) (Num 1) (Num 2)].

(** The fast average is above, then comes down to touch the slow one. *)
Definition df_above_then_level : DataFrame :=
  frame [row (Num 10) (Num 50) (Num 2) (Num 1);
         row (Num 10) (Num 50) (Num 2) (Num 1);
         row (Num 10) (Num 50) (Num 1) (Num 1)].

(** A plain bullish crossing with an oversold RSI. *)
Definition df_bullish_cross : DataFrame :=
  frame [row (Num 10) (Num 40) (Num 1) (Num 2);
         row (Num 10) (Num 40) (Num 1) (Num 2);
         row (Num 10) (Num 20) (Num 3) (Num 2)].

(** The row before the latest has no indicator values yet. *)
Definition df_previous_nan : DataFrame :=
  frame [row (Num 10) NaN NaN NaN;
         row (Num 10) NaN NaN NaN;
         row (Num 10) (Num 20) (Num 2) (Num 1)].

(** The latest close is missing, the indicators are there. *)
Definition df_close_nan : DataFrame :=
  frame [row (Num 10) (Num 40) (Num 2) (Num 1);
         row (Num 10) (Num 40) (Num 2) (Num 1);
         row NaN (Num 40) (Num 2) (Num 1)].

(** Two rows only. *)
Definition df_short : DataFrame :=
  frame [row (Num 10) (Num 40) (Num 2) (Num 1);
         row (Num 10) (Num 40) (Num 2) (Num 1)].

(** The same bullish crossing with a milder RSI. *)
Definition df_bullish_cross_mild : DataFrame :=
  frame [row (Num 10) (Num 40) (Num 1) (Num 2);
         row (Num 10) (Num 40) (Num 1) (Num 2);
         row (Num 10) (Num 25) (Num 3) (Num 2)].

(** A bot trading BTC, 500 per trade, with the stock parts. *)
Definition bot : PaperTradingBot :=
  mkPaperTradingBot btc 500 trader stock_strategy.

(** A funded account with three equity snapshots: up, then down. *)
Definition db_snapshots : Db :=
  mkDb [] [] 0 ∅ (Some (mkAccount 10000 10000 0))
       [(1%Z, 10000); (3%Z, 9000); (2%Z, 12000)].

(** A funded account whose equity snapshots never fall. *)
Definition db_rising : Db :=
  mkDb [] [] 0 ∅ (Some (mkAccount 10000 10000 0))
       [(1%Z, 10000); (2%Z, 10000); (3%Z, 12000)].

(** * Properties *)

(** ** Floats *)

Lemma Qltb_lt (x y : Q) : Qltb x y = true <-> x < y.
Proof.
  unfold Qltb. rewrite negb_true_iff. split.
  - intros H. apply Qnot_le_lt. intros Hle.
    apply Qle_bool_iff in Hle. congruence.
  - intros H. destruct (Qle_bool y x) eqn:E; [|reflexivity].
    apply Qle_bool_iff in E. exfalso. eapply Qlt_not_le; eassumption.
Qed.

Lemma Qltb_ge (x y : Q) : Qltb x y = false <-> y <= x.
Proof.
  unfold Qltb. rewrite negb_false_iff. apply Qle_bool_iff.
Qed.

Lemma Qle_bool_gt (x y : Q) : Qle_bool x y = false <-> y < x.
Proof.
  rewrite <- Qltb_lt. unfold Qltb. rewrite negb_true_iff. reflexivity.
Qed.

Lemma Qeq_bool_false (x y : Q) : Qeq_bool x y = false <-> ~ x == y.
Proof.
  split.
  - intros H E. apply Qeq_bool_iff in E. congruence.
  - intros H. destruct (Qeq_bool x y) eqn:E; [|reflexivity].
    apply Qeq_bool_iff in E. contradiction.
Qed.

(** ** The monad *)

Lemma bind_ok {A B} (m : M A) (k : A -> M B) db a db' :
  m db = (Ok a, db') -> (m ≫= k) db = k a db'.
Proof. intros H. unfold mbind, M_bind, bind. rewrite H. reflexivity. Qed.

Lemma bind_raise {A B} (m : M A) (k : A -> M B) db e db' :
  m db = (Raise e, db') -> (m ≫= k) db = (Raise e, db').
Proof. intros H. unfold mbind, M_bind, bind. rewrite H. reflexivity. Qed.

Ltac unfold_m :=
  unfold mbind, M_bind, bind, mret, M_ret, ret, gets, modify, raise in *.

(** ** The ledger operations, run on a store *)

Lemma get_latest_price_run symbol db :
  database.get_latest_price symbol db = (Ok (price_of symbol db), db).
Proof. reflexivity. Qed.

Lemma get_cash_balance_run self db :
  account_py.get_cash_balance self db = (Ok (cash_of db), db).
Proof.
  unfold account_py.get_cash_balance, database.get_account, cash_of.
  unfold_m. reflexivity.
Qed.

Lemma positions_value_run ps : forall acc db,
  account_py.positions_value ps acc db = (Ok (holdings_value db ps acc), db).
Proof.
  induction ps as [|[symbol position] rest IH]; intros acc db.
  - reflexivity.
  - cbn [account_py.positions_value].
    erewrite bind_ok by apply get_latest_price_run.
    rewrite IH. cbn [holdings_value fold_left fst snd].
    unfold mark_price. f_equal. f_equal. f_equal.
    destruct (price_of symbol db) as [p|]; [|reflexivity].
    destruct (truthy p); reflexivity.
Qed.

Lemma calculate_total_equity_run self cash db :
  account_py.calculate_total_equity self (Some cash) db
  = (Ok (equity_of cash db), db).
Proof.
  unfold account_py.calculate_total_equity.
  erewrite bind_ok by reflexivity.
  erewrite bind_ok by reflexivity.
  erewrite bind_ok by apply positions_value_run.
  reflexivity.
Qed.

Lemma calculate_total_equity_default_run self db :
  account_py.calculate_total_equity self None db
  = (Ok (equity_of (cash_of db) db), db).
Proof.
  unfold account_py.calculate_total_equity.
  erewrite bind_ok by apply get_cash_balance_run.
  erewrite bind_ok by reflexivity.
  erewrite bind_ok by apply positions_value_run.
  reflexivity.
Qed.

Lemma update_cash_balance_run self now new_balance db :
  account_py.update_cash_balance self now new_balance db
  = (Ok tt, set_account (mkAccount new_balance (equity_of new_balance db) now) db).
Proof.
  unfold account_py.update_cash_balance.
  erewrite bind_ok by apply calculate_total_equity_run.
  reflexivity.
Qed.

Lemma update_position_run self now symbol a e db :
  account_py.update_position self now symbol a e db
  = (Ok tt,
     let db1 := set_positions (store_position symbol a e (positions db)) db in
     set_account (mkAccount (cash_of db) (equity_of (cash_of db) db1) now) db1).
Proof.
  unfold account_py.update_position.
  erewrite bind_ok by reflexivity.
  erewrite bind_ok by apply get_cash_balance_run.
  erewrite bind_ok by apply calculate_total_equity_run.
  reflexivity.
Qed.

Lemma initialize_account_run now sb db :
  database.initialize_account now sb db
  = (Ok tt, match account db with
            | Some _ => db
            | None => set_account (mkAccount sb sb now) db
            end).
Proof.
  unfold database.initialize_account.
  erewrite bind_ok by (unfold database.get_account, gets; reflexivity).
  destruct (account db); reflexivity.
Qed.

(** ** Solvency check *)

(** C5, as the code has it: [can_afford trade_value] is true exactly when
    [trade_value + trade_value * fee_rate <= cash_balance], with the sum
    formed as the code forms it (the fee first, then the total cost) and
    equality included, where [cash_balance] is what [get_cash_balance]
    returns; the call reads the store and leaves it as it was. *)
Theorem can_afford_iff (self : PaperAccount) (trade_value : Q) (db : Db) :
  exists (b : bool) (cash : Q),
    account_py.can_afford self trade_value db = (Ok b, db)
    /\ account_py.get_cash_balance self db = (Ok cash, db)
    /\ (b = true
        <-> trade_value + account_py.calculate_fee self trade_value <= cash)
    /\ (trade_value + account_py.calculate_fee self trade_value == cash
        -> b = true)
    /\ account_py.calculate_fee self trade_value
       = trade_value * fee_percent self.
Proof.
  unfold account_py.can_afford.
  erewrite bind_ok by apply get_cash_balance_run.
  eexists. exists (cash_of db). split; [reflexivity|].
  split; [apply get_cash_balance_run|].
  split; [apply Qle_bool_iff|].
  split; [|reflexivity].
  intros E. apply Qle_bool_iff. rewrite E. apply Qle_refl.
Qed.

(** C5 as stated fails on doubles at the boundary.  With the configured
    fee of 0.1 percent, cash 0.1001 and a trade value of 0.1, the product
    [0.1 * (1 + 0.001)] rounds to 0.10009999999999999, which the cash
    covers, while the sum the code forms, [0.1 + 0.1 * 0.001], rounds to
    0.10010000000000001, which it does not: [can_afford] answers False. *)
Lemma can_afford_rounds_the_sum :
  spec_can_afford_binary64 fee_percent_binary64 0.1001%float 0.1%float = true
  /\ can_afford_binary64 fee_percent_binary64 0.1001%float 0.1%float = false.
Proof. split; vm_compute; reflexivity. Qed.

(** ** Reading the cash balance *)

(** C7, as the code has it: [get_cash_balance] always returns; it returns
    the stored balance when the account row exists and [0.0] when it does
    not, and in both cases leaves the store untouched (no account row is
    created).  The account row is created, with cash and equity at the
    starting balance, by [get_account_info] and by the constructor of
    [PaperAccount] when they find none, and [get_cash_balance] returns the
    starting balance after either; on a store with an account row
    [get_account_info] only reads. *)
Theorem get_cash_balance_total (self : PaperAccount) (now : Z) (db : Db) :
  account_py.get_cash_balance self db
  = (Ok (match account db with
         | Some acc => cash_balance acc
         | None => 0
         end), db)
  /\ (account db = None ->
      let sb := starting_balance self in
      let db' := set_account (mkAccount sb sb now) db in
      account_py.get_account_info self now db
      = (Ok (mkAccountInfo sb sb (open_positions db) now), db')
      /\ account_py.get_cash_balance self db' = (Ok sb, db'))
  /\ (account db = None ->
      forall arg, exists built,
        let sb := starting_balance built in
        let db' := set_account (mkAccount sb sb now) db in
        account_py.init now arg db = (Ok built, db')
        /\ account_py.get_cash_balance built db' = (Ok sb, db'))
  /\ (forall acc, account db = Some acc ->
      account_py.get_account_info self now db
      = (Ok (mkAccountInfo (cash_balance acc) (total_equity acc)
               (open_positions db) (last_updated acc)), db)).
Proof.
  split.
  { unfold account_py.get_cash_balance.
    erewrite bind_ok by (unfold database.get_account, gets; reflexivity).
    destruct (account db); reflexivity. }
  split.
  { intros Hnone sb db'. split; [|apply get_cash_balance_run].
    unfold account_py.get_account_info.
    erewrite bind_ok by (unfold database.get_account, gets; reflexivity).
    rewrite Hnone.
    erewrite bind_ok; cycle 1.
    { erewrite bind_ok by apply initialize_account_run.
      rewrite Hnone. unfold database.get_account, gets. reflexivity. }
    erewrite bind_ok by (unfold database.get_all_positions, gets; reflexivity).
    reflexivity. }
  split.
  { intros Hnone arg. unfold account_py.init.
    erewrite bind_ok by apply initialize_account_run.
    rewrite Hnone.
    exists (mkPaperAccount
              match arg with
              | Some b => if truthy b then b else config.STARTING_BALANCE_USDT
              | None => config.STARTING_BALANCE_USDT
              end (config.TRADING_FEE_PERCENT / 100)).
    split; [reflexivity|]. apply get_cash_balance_run. }
  intros acc Hsome. unfold account_py.get_account_info.
  erewrite bind_ok by (unfold database.get_account, gets; reflexivity).
  rewrite Hsome.
  erewrite bind_ok by reflexivity.
  erewrite bind_ok by (unfold database.get_all_positions, gets; reflexivity).
  reflexivity.
Qed.

(** C7 as stated fails on a store without an account row, the state
    [database.reset_database] leaves behind an account object built
    earlier: the call returns 0, not the starting balance of 10,000, and
    the row is still absent afterwards. *)
Lemma get_cash_balance_no_auto_init :
  (account_py.init 0 None ≫= fun self =>
   database.reset_database ≫= fun _ =>
   account_py.get_cash_balance self) db_empty = (Ok 0, db_empty)
  /\ account db_empty = None
  /\ fst (account_py.get_cash_balance paper db_empty) = Ok 0
  /\ ~ 0 == starting_balance paper
  /\ account (snd (account_py.get_cash_balance paper db_empty)) = None.
Proof.
  split; [vm_compute; reflexivity|].
  split; [reflexivity|]. split; [reflexivity|]. split; [|reflexivity].
  intros H. vm_compute in H. discriminate.
Qed.

(** ** Storing a position *)

Lemma store_position_lookup symbol a e ps :
  store_position symbol a e ps !! symbol
  = if Qle_bool a 0 then None else Some (mkPosition a e 0).
Proof.
  unfold store_position. destruct (Qle_bool a 0).
  - apply lookup_delete_eq.
  - apply lookup_insert_eq.
Qed.

(** C6, as the code has it: [update_position symbol new_amount new_avg_price]
    deletes the row when [new_amount <= 0] and upserts it otherwise (the
    epsilon test belongs to [market_sell]); the row it leaves for [symbol]
    always has a strictly positive amount. *)
Theorem update_position_threshold (self : PaperAccount) (now : Z)
    (symbol : string) (new_amount new_avg_price : Q) (db : Db) :
  exists db',
    account_py.update_position self now symbol new_amount new_avg_price db
      = (Ok tt, db')
    /\ (new_amount <= 0 -> positions db' = delete symbol (positions db))
    /\ (0 < new_amount ->
        positions db'
        = <[symbol := mkPosition new_amount new_avg_price 0]> (positions db))
    /\ (forall pos, positions db' !! symbol = Some pos -> 0 < amount pos).
Proof.
  rewrite update_position_run. eexists. split; [reflexivity|].
  cbn [positions set_account set_positions].
  unfold store_position.
  destruct (Qle_bool new_amount 0) eqn:E.
  - apply Qle_bool_iff in E. repeat split.
    + intros H. exfalso. lra.
    + intros pos. rewrite lookup_delete_eq. discriminate.
  - apply Qle_bool_gt in E. repeat split.
    + intros H. exfalso. lra.
    + intros pos. rewrite lookup_insert_eq. intros [= <-]. exact E.
Qed.

(** C6 as stated fails below epsilon: an amount of 5e-7 is stored, not
    deleted. *)
Lemma update_position_keeps_dust :
  let dust := 1 # 2000000 in
  0 < dust /\ dust <= epsilon
  /\ positions (snd (account_py.update_position paper 7 btc dust 50000 db_funded))
       !! btc
     = Some (mkPosition dust 50000 0).
Proof.
  cbn zeta. split; [reflexivity|]. split; [discriminate|].
  rewrite update_position_run. cbn [snd positions set_account set_positions].
  rewrite store_position_lookup. reflexivity.
Qed.

(** ** Strategy construction *)



(** ** Selling *)

Lemma get_position_run self symbol db :
  account_py.get_position self symbol db = (Ok (positions db !! symbol), db).
Proof. reflexivity. Qed.

Lemma get_current_price_run self symbol db :
  executor.get_current_price self symbol db = (Ok (price_of symbol db), db).
Proof. reflexivity. Qed.

Lemma price_of_set_account symbol a db :
  price_of symbol (set_account a db) = price_of symbol db.
Proof. reflexivity. Qed.

Lemma price_of_set_positions symbol ps db :
  price_of symbol (set_positions ps db) = price_of symbol db.
Proof. reflexivity. Qed.

(** A sell that passes the four checks, run to its end: the fill, and the
    tables it leaves. *)
Lemma market_sell_run (self : TradeExecutor) (now : Z) (symbol : string)
    (base_amount : Q) (db : Db) (pos : Position) (p : Q) :
  0 < base_amount ->
  positions db !! symbol = Some pos ->
  base_amount <= amount pos ->
  price_of symbol db = Some p ->
  let gross_proceeds := base_amount * p in
  let fee := account_py.calculate_fee (acct self) gross_proceeds in
  let net_proceeds := gross_proceeds - fee in
  let realized_pnl := net_proceeds - base_amount * avg_entry_price pos in
  let new_amount := amount pos - base_amount in
  exists trade_id db',
    executor.market_sell self now symbol base_amount db
      = (Ok (Sold (mkSellFill trade_id symbol base_amount p gross_proceeds fee
                     net_proceeds realized_pnl now)), db')
    /\ positions db'
       = (if Qle_bool new_amount epsilon
          then store_position symbol 0 0 (positions db)
          else store_position symbol new_amount (avg_entry_price pos)
                 (positions db))
    /\ cash_of db' = cash_of db + net_proceeds
    /\ trades db'
       = trades db ++ [mkTrade trade_id symbol sell base_amount p fee now
                         realized_pnl]
    /\ ohlcv db' = ohlcv db.
Proof.
  intros Hpos Hlook Hheld Hprice gross_proceeds fee net_proceeds realized_pnl
    new_amount.
  unfold executor.market_sell.
  assert (E1 : Qle_bool base_amount 0 = false) by (apply Qle_bool_gt; exact Hpos).
  rewrite E1.
  erewrite bind_ok by apply get_position_run. rewrite Hlook.
  assert (E2 : Qltb (amount pos) base_amount = false) by (apply Qltb_ge; exact Hheld).
  rewrite E2.
  erewrite bind_ok by apply get_current_price_run. rewrite Hprice.
  fold new_amount.
  destruct (Qle_bool new_amount epsilon);
    erewrite bind_ok by apply update_position_run;
    erewrite bind_ok by apply get_cash_balance_run;
    erewrite bind_ok by apply update_cash_balance_run;
    unfold_m; unfold database.log_trade;
    eexists; eexists; (split; [reflexivity|]); repeat split; reflexivity.
Qed.

(** C3: a sell that passes the four checks is filled with
    gross = base * p, fee = gross * f, net = gross - fee and
    pnl = net - base * e; the net proceeds are added to the cash; the
    position is removed when what remains is at most epsilon, and otherwise
    keeps its average entry price for the remainder. *)
Theorem market_sell_filled (self : TradeExecutor) (now : Z) (symbol : string)
    (base_amount : Q) (db : Db) (pos : Position) (p : Q) :
  0 < base_amount ->
  positions db !! symbol = Some pos ->
  base_amount <= amount pos ->
  price_of symbol db = Some p ->
  let f := fee_percent (acct self) in
  let e := avg_entry_price pos in
  let gross_proceeds := base_amount * p in
  let fee := gross_proceeds * f in
  let net_proceeds := gross_proceeds - fee in
  let realized_pnl := net_proceeds - base_amount * e in
  exists trade_id db',
    executor.market_sell self now symbol base_amount db
      = (Ok (Sold (mkSellFill trade_id symbol base_amount p gross_proceeds fee
                     net_proceeds realized_pnl now)), db')
    /\ cash_of db' = cash_of db + net_proceeds
    /\ (amount pos - base_amount <= epsilon -> positions db' !! symbol = None)
    /\ (epsilon < amount pos - base_amount ->
        positions db' !! symbol
        = Some (mkPosition (amount pos - base_amount) e 0))
    /\ trades db'
       = trades db ++ [mkTrade trade_id symbol sell base_amount p fee now
                         realized_pnl].
Proof.
  intros Hpos Hlook Hheld Hprice f e gross_proceeds fee net_proceeds realized_pnl.
  destruct (market_sell_run self now symbol base_amount db pos p
              Hpos Hlook Hheld Hprice)
    as (trade_id & db' & Hrun & Hps & Hcash & Htrades & _).
  exists trade_id, db'.
  split; [exact Hrun|]. split; [exact Hcash|].
  split; [|split; [|exact Htrades]].
  - intros Hdust. apply Qle_bool_iff in Hdust.
    rewrite Hps, Hdust, store_position_lookup. reflexivity.
  - intros Hrest.
    assert (Hpositive : 0 < amount pos - base_amount).
    { eapply Qlt_trans; [|exact Hrest]. reflexivity. }
    apply Qle_bool_gt in Hrest. apply Qle_bool_gt in Hpositive.
    rewrite Hps, Hrest, store_position_lookup, Hpositive. reflexivity.
Qed.

Lemma market_sell_filled_witness :
  exists trade_id db',
    executor.market_sell trader 9 btc (1 # 100) db_holding
      = (Ok (Sold (mkSellFill trade_id btc (1 # 100) 50000
                     ((1 # 100) * 50000)
                     ((1 # 100) * 50000 * fee_percent (acct trader))
                     ((1 # 100) * 50000
                      - (1 # 100) * 50000 * fee_percent (acct trader))
                     ((1 # 100) * 50000
                      - (1 # 100) * 50000 * fee_percent (acct trader)
                      - (1 # 100) * 50000) 9)), db')
    /\ cash_of db'
       = cash_of db_holding
         + ((1 # 100) * 50000 - (1 # 100) * 50000 * fee_percent (acct trader))
    /\ positions db' !! btc = Some (mkPosition ((1 # 50) - (1 # 100)) 50000 0).
Proof.
  destruct (market_sell_filled trader 9 btc (1 # 100) db_holding
              (mkPosition (1 # 50) 50000 0) 50000)
    as (trade_id & db' & Hrun & Hcash & _ & Hkeep & _).
  - reflexivity.
  - vm_compute. reflexivity.
  - vm_compute. discriminate.
  - vm_compute. reflexivity.
  - exists trade_id, db'. split; [exact Hrun|]. split; [exact Hcash|].
    apply Hkeep. vm_compute. reflexivity.
Defined.

(** ** Rejected requests *)

Lemma can_afford_run self a db :
  account_py.can_afford self a db
  = (Ok (Qle_bool (a + account_py.calculate_fee self a) (cash_of db)), db).
Proof.
  unfold account_py.can_afford.
  erewrite bind_ok by apply get_cash_balance_run. reflexivity.
Qed.

Lemma float_div_run x y db :
  float_div x y db
  = if Qeq_bool y 0 then (Raise ZeroDivisionError, db) else (Ok (x / y), db).
Proof. unfold float_div. destruct (Qeq_bool y 0); reflexivity. Qed.

(** A buy either leaves the store as it found it (rejections and raises)
    or is filled. *)
Lemma market_buy_cases self now symbol amount_usdt db :
  (exists o, executor.market_buy self now symbol amount_usdt db = (o, db)
             /\ (forall fill, o <> Ok (Bought fill)))
  \/ (exists fill db',
        executor.market_buy self now symbol amount_usdt db
        = (Ok (Bought fill), db')).
Proof.
  unfold executor.market_buy.
  destruct (Qle_bool amount_usdt 0).
  { left. eexists. split; [reflexivity|]. discriminate. }
  erewrite bind_ok by apply get_current_price_run.
  destruct (price_of symbol db) as [price|].
  2:{ left. eexists. split; [reflexivity|]. discriminate. }
  erewrite bind_ok by apply can_afford_run.
  destruct (Qle_bool _ (cash_of db)); cbn [negb].
  2:{ left. erewrite bind_ok by apply get_cash_balance_run.
      eexists. split; [reflexivity|]. discriminate. }
  destruct (Qeq_bool price 0) eqn:Ep.
  { left. erewrite bind_raise by (rewrite float_div_run, Ep; reflexivity).
    eexists. split; [reflexivity|]. discriminate. }
  erewrite bind_ok by (rewrite float_div_run, Ep; reflexivity).
  erewrite bind_ok by apply get_position_run.
  destruct (positions db !! symbol) as [existing|].
  - destruct (Qeq_bool (amount existing + amount_usdt / price) 0) eqn:En.
    { left.
      erewrite bind_raise
        by (erewrite bind_raise by (rewrite float_div_run, En; reflexivity);
            reflexivity).
      eexists. split; [reflexivity|]. discriminate. }
    right.
    erewrite bind_ok
      by (erewrite bind_ok by (rewrite float_div_run, En; reflexivity);
          apply update_position_run).
    erewrite bind_ok by apply get_cash_balance_run.
    erewrite bind_ok by apply update_cash_balance_run.
    unfold_m. unfold database.log_trade. eexists. eexists. reflexivity.
  - right.
    erewrite bind_ok by apply update_position_run.
    erewrite bind_ok by apply get_cash_balance_run.
    erewrite bind_ok by apply update_cash_balance_run.
    unfold_m. unfold database.log_trade. eexists. eexists. reflexivity.
Qed.

(** A sell either leaves the store as it found it or is filled. *)
Lemma market_sell_cases self now symbol amount_crypto db :
  (exists o, executor.market_sell self now symbol amount_crypto db = (o, db)
             /\ (forall fill, o <> Ok (Sold fill)))
  \/ (exists fill db',
        executor.market_sell self now symbol amount_crypto db
        = (Ok (Sold fill), db')).
Proof.
  unfold executor.market_sell.
  destruct (Qle_bool amount_crypto 0).
  { left. eexists. split; [reflexivity|]. discriminate. }
  erewrite bind_ok by apply get_position_run.
  destruct (positions db !! symbol) as [position|].
  2:{ left. eexists. split; [reflexivity|]. discriminate. }
  destruct (Qltb (amount position) amount_crypto).
  { left. eexists. split; [reflexivity|]. discriminate. }
  erewrite bind_ok by apply get_current_price_run.
  destruct (price_of symbol db) as [price|].
  2:{ left. eexists. split; [reflexivity|]. discriminate. }
  right.
  destruct (Qle_bool _ epsilon);
    erewrite bind_ok by apply update_position_run;
    erewrite bind_ok by apply get_cash_balance_run;
    erewrite bind_ok by apply update_cash_balance_run;
    unfold_m; unfold database.log_trade; eexists; eexists; reflexivity.
Qed.

(** C1: a [market_buy] or [market_sell] that is rejected leaves the whole
    store as it was: the cash balance, every position, the trade log, the
    stored total equity, and the equity recomputed from the store. *)
Theorem rejected_request_keeps_ledger (self : TradeExecutor) (now : Z)
    (symbol : string) (amount_ : Q) (db : Db)
    (o : outcome TradeResult) (db' : Db) :
  executor.market_buy self now symbol amount_ db = (o, db')
  \/ executor.market_sell self now symbol amount_ db = (o, db') ->
  rejected o = true ->
  db' = db
  /\ account_py.get_cash_balance (acct self) db'
     = account_py.get_cash_balance (acct self) db
  /\ positions db' = positions db
  /\ trades db' = trades db
  /\ total_equity <$> account db' = total_equity <$> account db
  /\ account_py.calculate_total_equity (acct self) None db'
     = account_py.calculate_total_equity (acct self) None db.
Proof.
  intros Hrun Hrej.
  assert (Hsame : db' = db).
  { destruct Hrun as [Hrun|Hrun].
    - destruct (market_buy_cases self now symbol amount_ db)
        as [(o1 & E & _)|(fill & db1 & E)];
        rewrite E in Hrun; injection Hrun as <- <-; [reflexivity|discriminate].
    - destruct (market_sell_cases self now symbol amount_ db)
        as [(o1 & E & _)|(fill & db1 & E)];
        rewrite E in Hrun; injection Hrun as <- <-; [reflexivity|discriminate]. }
  subst db'. repeat split; reflexivity.
Qed.

Lemma rejected_request_keeps_ledger_witness :
  snd (executor.market_buy trader 3 btc 20000 db_funded) = db_funded
  /\ snd (executor.market_sell trader 3 btc 1 db_funded) = db_funded.
Proof.
  split.
  - refine (proj1 (rejected_request_keeps_ledger trader 3 btc 20000 db_funded
                     (fst (executor.market_buy trader 3 btc 20000 db_funded))
                     _ (or_introl _) _)).
    + vm_compute. reflexivity.
    + vm_compute. reflexivity.
  - refine (proj1 (rejected_request_keeps_ledger trader 3 btc 1 db_funded
                     (fst (executor.market_sell trader 3 btc 1 db_funded))
                     _ (or_intror _) _)).
    + vm_compute. reflexivity.
    + vm_compute. reflexivity.
Defined.

(** ** Buying *)

(** The [positions] table after a filled buy of [q] at price [p]. *)
Lemma market_buy_filled_inv self now symbol q db fill db' :
  executor.market_buy self now symbol q db = (Ok (Bought fill), db') ->
  exists p,
    price_of symbol db = Some p
    /\ 0 < q
    /\ ~ p == 0
    /\ q + q * fee_percent (acct self) <= cash_of db
    /\ b_amount fill = q / p
    /\ b_fee fill = q * fee_percent (acct self)
    /\ positions db'
       = match positions db !! symbol with
         | Some existing =>
             store_position symbol (amount existing + q / p)
               ((amount existing * avg_entry_price existing + q)
                / (amount existing + q / p))
               (positions db)
         | None => store_position symbol (q / p) p (positions db)
         end
    /\ cash_of db' = cash_of db - (q + q * fee_percent (acct self))
    /\ ohlcv db' = ohlcv db.
Proof.
  unfold executor.market_buy.
  destruct (Qle_bool q 0) eqn:Eq; [discriminate|].
  apply Qle_bool_gt in Eq.
  erewrite bind_ok by apply get_current_price_run.
  destruct (price_of symbol db) as [price|]; [|discriminate].
  erewrite bind_ok by apply can_afford_run.
  destruct (Qle_bool _ (cash_of db)) eqn:Ec; cbn [negb].
  2:{ erewrite bind_ok by apply get_cash_balance_run. discriminate. }
  apply Qle_bool_iff in Ec. unfold account_py.calculate_fee in Ec.
  destruct (Qeq_bool price 0) eqn:Ep.
  { erewrite bind_raise by (rewrite float_div_run, Ep; reflexivity).
    discriminate. }
  erewrite bind_ok by (rewrite float_div_run, Ep; reflexivity).
  apply Qeq_bool_false in Ep.
  erewrite bind_ok by apply get_position_run.
  destruct (positions db !! symbol) as [existing|].
  - destruct (Qeq_bool (amount existing + q / price) 0) eqn:En.
    { erewrite bind_raise
        by (erewrite bind_raise by (rewrite float_div_run, En; reflexivity);
            reflexivity).
      discriminate. }
    erewrite bind_ok
      by (erewrite bind_ok by (rewrite float_div_run, En; reflexivity);
          apply update_position_run).
    erewrite bind_ok by apply get_cash_balance_run.
    erewrite bind_ok by apply update_cash_balance_run.
    unfold_m. unfold database.log_trade. intros [= <- <-].
    exists price. cbn. repeat split; auto.
  - erewrite bind_ok by apply update_position_run.
    erewrite bind_ok by apply get_cash_balance_run.
    erewrite bind_ok by apply update_cash_balance_run.
    unfold_m. unfold database.log_trade. intros [= <- <-].
    exists price. cbn. repeat split; auto.
Qed.

(** A buy of a symbol not held yet, at a non-zero price and within the
    cash, is filled and opens the position [(q / p, p)]. *)
Lemma market_buy_opens self now symbol q db p :
  0 < q ->
  price_of symbol db = Some p ->
  ~ p == 0 ->
  q + q * fee_percent (acct self) <= cash_of db ->
  positions db !! symbol = None ->
  exists trade_id db',
    executor.market_buy self now symbol q db
      = (Ok (Bought (mkBuyFill trade_id symbol (q / p) p q
                       (q * fee_percent (acct self))
                       (q + q * fee_percent (acct self)) now)), db').
Proof.
  intros Hq Hprice Hp Hcash Hnone.
  unfold executor.market_buy.
  assert (E1 : Qle_bool q 0 = false) by (apply Qle_bool_gt; exact Hq).
  rewrite E1.
  erewrite bind_ok by apply get_current_price_run. rewrite Hprice.
  erewrite bind_ok by apply can_afford_run.
  assert (E2 : Qle_bool (q + account_py.calculate_fee (acct self) q) (cash_of db)
               = true) by (apply Qle_bool_iff; exact Hcash).
  rewrite E2. cbn [negb].
  assert (E3 : Qeq_bool p 0 = false) by (apply Qeq_bool_false; exact Hp).
  erewrite bind_ok by (rewrite float_div_run, E3; reflexivity).
  erewrite bind_ok by apply get_position_run. rewrite Hnone.
  erewrite bind_ok by apply update_position_run.
  erewrite bind_ok by apply get_cash_balance_run.
  erewrite bind_ok by apply update_cash_balance_run.
  unfold_m. unfold database.log_trade. eexists. eexists. reflexivity.
Qed.

(** ** Round trip *)

Lemma price_of_same_ohlcv symbol db db' :
  ohlcv db' = ohlcv db -> price_of symbol db' = price_of symbol db.
Proof. unfold price_of. intros ->. reflexivity. Qed.

(** C4, as the code has it: buying [X] of a symbol not held, at the price
    [p], and selling the whole fill [X / p] at the same price.  The sell
    has gross proceeds [(X / p) * p], the fee [gross * fee_rate] and net
    proceeds [gross - sell_fee]; the entry cost is the same product
    [(X / p) * p], so the realized PnL is [net - gross]: the buy fee
    [X * fee_rate] enters neither, it was paid from the cash at the buy.
    The cash ends at [cash - (X + buy_fee) + net], and the position is
    removed. *)
Theorem round_trip (self : TradeExecutor) (now1 now2 : Z) (symbol : string)
    (X : Q) (db : Db) (p : Q) :
  0 < X ->
  price_of symbol db = Some p ->
  0 < p ->
  0 < X / p ->
  X + X * fee_percent (acct self) <= cash_of db ->
  positions db !! symbol = None ->
  let base_amount := X / p in
  let buy_fee := X * fee_percent (acct self) in
  let gross_proceeds := base_amount * p in
  let sell_fee := gross_proceeds * fee_percent (acct self) in
  let net_proceeds := gross_proceeds - sell_fee in
  exists buy_id db1 sell_id db2,
    executor.market_buy self now1 symbol X db
    = (Ok (Bought (mkBuyFill buy_id symbol base_amount p X buy_fee
                     (X + buy_fee) now1)), db1)
    /\ executor.market_sell self now2 symbol base_amount db1
       = (Ok (Sold (mkSellFill sell_id symbol base_amount p gross_proceeds
                      sell_fee net_proceeds (net_proceeds - gross_proceeds)
                      now2)), db2)
    /\ cash_of db2 = cash_of db - (X + buy_fee) + net_proceeds
    /\ positions db2 !! symbol = None.
Proof.
  intros HX Hprice Hp Hbase Hcash Hnone.
  assert (Hp0 : ~ p == 0) by (intros E; rewrite E in Hp; discriminate).
  destruct (market_buy_opens self now1 symbol X db p HX Hprice Hp0 Hcash Hnone)
    as (tid & db1 & Hbuy).
  destruct (market_buy_filled_inv _ _ _ _ _ _ _ Hbuy)
    as (p' & Hprice' & _ & _ & _ & _ & _ & Hps & Hc1 & Hoh).
  rewrite Hprice in Hprice'. injection Hprice' as <-.
  rewrite Hnone in Hps.
  assert (Hheld : positions db1 !! symbol = Some (mkPosition (X / p) p 0)).
  { rewrite Hps, store_position_lookup.
    replace (Qle_bool (X / p) 0) with false; [reflexivity|].
    symmetry. apply Qle_bool_gt. exact Hbase. }
  assert (Hprice1 : price_of symbol db1 = Some p).
  { rewrite (price_of_same_ohlcv symbol db db1 Hoh). exact Hprice. }
  pose proof (market_sell_run self now2 symbol (X / p) db1
                (mkPosition (X / p) p 0) p Hbase Hheld (Qle_refl _) Hprice1)
    as Hsell.
  cbv zeta in Hsell. cbn [amount avg_entry_price] in Hsell.
  unfold account_py.calculate_fee in Hsell.
  destruct Hsell as (tid2 & db2 & Hsell & Hps2 & Hc2 & _ & _).
  assert (Hdust : Qle_bool (X / p - X / p) epsilon = true).
  { apply Qle_bool_iff. assert (X / p - X / p == 0) as -> by ring.
    discriminate. }
  rewrite Hdust in Hps2.
  cbv zeta. exists tid, db1, tid2, db2.
  split; [exact Hbuy|]. split; [exact Hsell|]. split.
  - rewrite Hc2, Hc1. reflexivity.
  - rewrite Hps2, store_position_lookup. reflexivity.
Qed.

Lemma round_trip_witness :
  exists buy_id db1 sell_id db2,
    executor.market_buy trader 5 btc 1000 db_funded
    = (Ok (Bought (mkBuyFill buy_id btc (1000 / 50000) 50000 1000
                     (1000 * fee_percent paper)
                     (1000 + 1000 * fee_percent paper) 5)), db1)
    /\ executor.market_sell trader 6 btc (1000 / 50000) db1
       = (Ok (Sold (mkSellFill sell_id btc (1000 / 50000) 50000
                      (1000 / 50000 * 50000)
                      (1000 / 50000 * 50000 * fee_percent paper)
                      (1000 / 50000 * 50000
                       - 1000 / 50000 * 50000 * fee_percent paper)
                      (1000 / 50000 * 50000
                       - 1000 / 50000 * 50000 * fee_percent paper
                       - 1000 / 50000 * 50000) 6)), db2)
    /\ cash_of db2
       = cash_of db_funded - (1000 + 1000 * fee_percent paper)
         + (1000 / 50000 * 50000 - 1000 / 50000 * 50000 * fee_percent paper)
    /\ positions db2 !! btc = None.
Proof.
  apply (round_trip trader 5 6 btc 1000 db_funded 50000).
  - reflexivity.
  - vm_compute. reflexivity.
  - reflexivity.
  - reflexivity.
  - vm_compute. discriminate.
  - vm_compute. reflexivity.
Defined.

(** C4 as stated fails on the documented scenario (cash 10,000, buy 1,000
    at 50,000, fee 0.1 percent, sell the fill at 50,000): both fees are 1,
    the net proceeds are 999 and not 1000 - 1 - 1, the realized PnL is -1
    and not -1 - 1. *)
Lemma round_trip_buy_fee_not_in_proceeds :
  match executor.market_buy trader 5 btc 1000 db_funded with
  | (Ok (Bought bf), db1) =>
      match executor.market_sell trader 6 btc (b_amount bf) db1 with
      | (Ok (Sold sf), db2) =>
          b_fee bf == 1 /\ s_fee sf == 1
          /\ s_net_proceeds sf == 999
          /\ ~ s_net_proceeds sf == 1000 - b_fee bf - s_fee sf
          /\ s_pnl sf == -1
          /\ ~ s_pnl sf == - b_fee bf - s_fee sf
          /\ cash_of db2 == 9998
          /\ positions db2 !! btc = None
      | _ => False
      end
  | _ => False
  end.
Proof.
  vm_compute. repeat split; try reflexivity; intros H; discriminate H.
Qed.

(** ** Cost basis over a run of buys *)

Lemma positions_set_ohlcv candles db :
  positions (set_ohlcv candles db) = positions db.
Proof. reflexivity. Qed.

(** One filled buy onto a position already held. *)
Lemma market_buy_averages self now symbol q db fill db' old p :
  positions db !! symbol = Some old ->
  0 < amount old ->
  price_of symbol db = Some p ->
  0 < p ->
  executor.market_buy self now symbol q db = (Ok (Bought fill), db') ->
  positions db' !! symbol
  = Some (mkPosition (amount old + q / p)
            ((amount old * avg_entry_price old + q) / (amount old + q / p)) 0)
  /\ 0 < amount old + q / p.
Proof.
  intros Hold Ha Hprice Hp Hbuy.
  destruct (market_buy_filled_inv _ _ _ _ _ _ _ Hbuy)
    as (p' & Hprice' & Hq & _ & _ & _ & _ & Hps & _ & _).
  rewrite Hprice in Hprice'. injection Hprice' as <-.
  rewrite Hold in Hps.
  assert (Hbase : 0 < q / p).
  { apply Qlt_shift_div_l; [exact Hp|]. lra. }
  assert (Hsum : 0 < amount old + q / p) by lra.
  split; [|exact Hsum].
  rewrite Hps, store_position_lookup.
  replace (Qle_bool (amount old + q / p) 0) with false; [reflexivity|].
  symmetry. apply Qle_bool_gt. exact Hsum.
Qed.

(** A run of buys onto a position already held applies the averaging of
    one buy after the other. *)
Lemma buy_run_existing self symbol db steps db' :
  buy_run self symbol db steps db' ->
  Forall (fun pq => 0 < fst pq) steps ->
  forall old, positions db !! symbol = Some old -> 0 < amount old ->
  positions db' !! symbol = Some (fold_left averaged_in steps old)
  /\ 0 < amount (fold_left averaged_in steps old).
Proof.
  induction 1 as [db|db candles now p q fill db1 steps db2 Hprice Hbuy Hrun IH];
    intros Hall old Hold Ha.
  - split; [exact Hold|exact Ha].
  - apply Forall_cons in Hall as [Hp Hall]. cbn [fst] in Hp.
    destruct (market_buy_averages self now symbol q (set_ohlcv candles db)
                fill db1 old p Hold Ha Hprice Hp Hbuy) as [Hnew Hsum].
    cbn [fold_left].
    apply (IH Hall (averaged_in old (p, q)) Hnew Hsum).
Qed.

(** C2, as the code has it: a run of filled buys of one symbol that started
    without a position, at positive prices and with a first buy of a
    positive base amount, ends with the position that the first buy opened,
    [(quote_amount / price, price)], averaged with each later buy in turn,
    one buy onto a position [(old_amount, old_avg_price)] storing the
    amount [old_amount + base_amount] at the average
    [(old_amount * old_avg_price + quote_amount) / (old_amount + base_amount)]
    with [base_amount = quote_amount / price]; the fill reports that base
    amount. *)
Theorem buys_average_cost (self : TradeExecutor) (symbol : string) (db : Db)
    (first : Q * Q) (rest : list (Q * Q)) (db' : Db) :
  positions db !! symbol = None ->
  Forall (fun pq => 0 < fst pq) (first :: rest) ->
  0 < snd first / fst first ->
  buy_run self symbol db (first :: rest) db' ->
  positions db' !! symbol = Some (fold_left averaged_in rest (opened first))
  /\ (forall held old now quote_amount price fill held',
        positions held !! symbol = Some old ->
        0 < amount old ->
        price_of symbol held = Some price ->
        0 < price ->
        executor.market_buy self now symbol quote_amount held
          = (Ok (Bought fill), held') ->
        let base_amount := quote_amount / price in
        b_amount fill = base_amount
        /\ positions held' !! symbol
           = Some (mkPosition (amount old + base_amount)
                     ((amount old * avg_entry_price old + quote_amount)
                      / (amount old + base_amount)) 0)).
Proof.
  intros Hnone Hall Hbase Hrun. split.
  - inversion Hrun
      as [|db0 candles now p q fill db1 steps db2 Hprice Hbuy Hrest]; subst.
    apply Forall_cons in Hall as [_ Hall]. cbn [fst snd] in Hbase.
    destruct (market_buy_filled_inv _ _ _ _ _ _ _ Hbuy)
      as (p' & Hprice' & _ & _ & _ & _ & _ & Hps & _ & _).
    rewrite Hprice in Hprice'. injection Hprice' as <-.
    rewrite positions_set_ohlcv, Hnone in Hps.
    assert (Hnew : positions db1 !! symbol = Some (opened (p, q))).
    { rewrite Hps, store_position_lookup. unfold opened. cbn [fst snd].
      replace (Qle_bool (q / p) 0) with false; [reflexivity|].
      symmetry. apply Qle_bool_gt. exact Hbase. }
    apply (buy_run_existing self symbol db1 rest db' Hrest Hall _ Hnew Hbase).
  - intros held old now quote_amount price fill held' Hold Ha Hprice Hp Hbuy
      base_amount.
    split.
    + destruct (market_buy_filled_inv _ _ _ _ _ _ _ Hbuy)
        as (p' & Hprice' & _ & _ & _ & Hfill & _).
      rewrite Hprice in Hprice'. injection Hprice' as <-. exact Hfill.
    + apply (market_buy_averages self now symbol quote_amount held fill held'
               old price Hold Ha Hprice Hp Hbuy).
Qed.

(** The two sample ticks form a run. *)
Lemma two_buys_run : buy_run trader btc db_cash two_buys db_after_second.
Proof.
  unfold two_buys.
  apply (buy_run_cons trader btc db_cash [candle_at 1 1] 1 1 100
           (mkBuyFill 1 btc (100 / 1) 1 100
              (account_py.calculate_fee paper 100)
              (100 + account_py.calculate_fee paper 100) 1)
           db_after_first).
  - vm_compute. reflexivity.
  - vm_compute. reflexivity.
  - apply (buy_run_cons trader btc db_after_first [candle_at 2 2] 2 2 100
             (mkBuyFill 2 btc (100 / 2) 2 100
                (account_py.calculate_fee paper 100)
                (100 + account_py.calculate_fee paper 100) 2)
             db_after_second).
    + vm_compute. reflexivity.
    + vm_compute. reflexivity.
    + apply buy_run_nil.
Qed.

Lemma buys_average_cost_witness :
  positions db_after_second !! btc
  = Some (mkPosition (100 / 1 + 100 / 2)
            ((100 / 1 * 1 + 100) / (100 / 1 + 100 / 2)) 0).
Proof.
  apply (buys_average_cost trader btc db_cash (1, 100) [(2, 100)]
           db_after_second).
  - vm_compute. reflexivity.
  - repeat constructor.
  - reflexivity.
  - exact two_buys_run.
Defined.

(** C2 as stated fails for 100 spent at price 1 and then 100 spent at
    price 2: the average weighted by the quote amounts is 3/2, the stored
    [avg_entry_price] is 200 / 150 = 4/3. *)
Lemma buys_average_not_quote_weighted :
  buy_run trader btc db_cash two_buys db_after_second
  /\ quote_weighted_average two_buys == 3 # 2
  /\ exists pos,
       positions db_after_second !! btc = Some pos
       /\ avg_entry_price pos == 4 # 3
       /\ ~ avg_entry_price pos == quote_weighted_average two_buys.
Proof.
  split; [exact two_buys_run|]. split; [reflexivity|].
  eexists. split; [vm_compute; reflexivity|].
  split; [reflexivity|]. intros H. discriminate H.
Qed.

(** ** Crossover detection *)

Lemma missing_columns_nil df :
  rsi_ema_strategy.missing_columns df = []
  <-> (forall col, col ∈ rsi_ema_strategy.required -> col ∈ columns df).
Proof.
  unfold rsi_ema_strategy.missing_columns. split.
  - intros Hnil col Hcol.
    destruct (decide (col ∈ columns df)) as [Hin|Hout]; [exact Hin|].
    exfalso.
    assert (Hf : In col (List.filter
                (fun col => negb (bool_decide (col ∈ columns df)))
                rsi_ema_strategy.required)).
    { apply filter_In. split.
      - apply list_elem_of_In. exact Hcol.
      - rewrite bool_decide_eq_false_2 by exact Hout. reflexivity. }
    rewrite Hnil in Hf. destruct Hf.
  - intros Hall.
    destruct (List.filter _ rsi_ema_strategy.required) as [|c rest] eqn:E;
      [reflexivity|].
    assert (Hf : In c (List.filter
                (fun col => negb (bool_decide (col ∈ columns df)))
                rsi_ema_strategy.required)) by (rewrite E; left; reflexivity).
    apply filter_In in Hf as [Hreq Hneg].
    apply list_elem_of_In in Hreq.
    rewrite bool_decide_eq_true_2 in Hneg by (apply Hall; exact Hreq).
    discriminate.
Qed.

(** Past its three guards, [analyze] leaves the strategy with the crossover
    memory set by the two crossover flags, whatever signal it returns. *)
Lemma analyze_memory self df position rsi ema_fast ema_slow :
  (3 <= len df)%nat ->
  rsi_ema_strategy.missing_columns df = [] ->
  getitem (iloc_neg df 1) "rsi" = Num rsi ->
  getitem (iloc_neg df 1) "ema_fast" = Num ema_fast ->
  getitem (iloc_neg df 1) "ema_slow" = Num ema_slow ->
  let current_above := Qltb ema_slow ema_fast in
  let prev_above := cell_gt (getitem (iloc_neg df 2) "ema_fast")
                            (getitem (iloc_neg df 2) "ema_slow") in
  snd (rsi_ema_strategy.analyze self df position)
  = if rsi_ema_strategy.bullish_crossover prev_above current_above
    then rsi_ema_strategy.set_last_crossover self (Some bullish)
    else if rsi_ema_strategy.bearish_crossover prev_above current_above
         then rsi_ema_strategy.set_last_crossover self (Some bearish)
         else self.
Proof.
  intros Hlen Hcols Hrsi Hfast Hslow current_above prev_above.
  unfold rsi_ema_strategy.analyze.
  assert (E : (len df <? 3)%nat = false) by (apply Nat.ltb_ge; exact Hlen).
  rewrite E, Hcols, Hrsi, Hfast, Hslow.
  fold current_above. fold prev_above.
  cbv zeta.
  repeat match goal with
         | |- context [if ?b then _ else _] =>
             match b with
             | context [if _ then _ else _] => fail 1
             | _ => destruct b eqn:?
             end
         end; reflexivity.
Qed.

Lemma bullish_crossover_iff pf ps cf cs :
  rsi_ema_strategy.bullish_crossover (cell_gt (Num pf) (Num ps)) (Qltb cs cf)
  = true <-> pf <= ps /\ cs < cf.
Proof.
  unfold rsi_ema_strategy.bullish_crossover. cbn [cell_gt].
  rewrite andb_true_iff, negb_true_iff, Qltb_ge, Qltb_lt. reflexivity.
Qed.

Lemma bearish_crossover_iff pf ps cf cs :
  rsi_ema_strategy.bearish_crossover (cell_gt (Num pf) (Num ps)) (Qltb cs cf)
  = true <-> ps < pf /\ cf <= cs.
Proof.
  unfold rsi_ema_strategy.bearish_crossover. cbn [cell_gt].
  rewrite andb_true_iff, negb_true_iff, Qltb_ge, Qltb_lt. reflexivity.
Qed.

(** C8, as the code has it: on two consecutive rows with EMA values,
    [analyze] detects a bullish crossover exactly when
    [prev_fast <= prev_slow] and [curr_fast > curr_slow], and a bearish
    crossover exactly when [prev_fast > prev_slow] and
    [curr_fast <= curr_slow]; a bullish detection sets [_last_crossover] to
    bullish, a bearish one to bearish, and without a detection the memory
    keeps its value. *)
Theorem crossover_detection (self : RsiEmaStrategy) (df : DataFrame)
    (position : option Position) (rsi curr_fast curr_slow prev_fast prev_slow : Q) :
  (3 <= len df)%nat ->
  (forall col, col ∈ rsi_ema_strategy.required -> col ∈ columns df) ->
  getitem (iloc_neg df 1) "rsi" = Num rsi ->
  getitem (iloc_neg df 1) "ema_fast" = Num curr_fast ->
  getitem (iloc_neg df 1) "ema_slow" = Num curr_slow ->
  getitem (iloc_neg df 2) "ema_fast" = Num prev_fast ->
  getitem (iloc_neg df 2) "ema_slow" = Num prev_slow ->
  let current_above := Qltb curr_slow curr_fast in
  let prev_above := cell_gt (Num prev_fast) (Num prev_slow) in
  let after := snd (rsi_ema_strategy.analyze self df position) in
  (rsi_ema_strategy.bullish_crossover prev_above current_above = true
   <-> spec_bullish prev_fast prev_slow curr_fast curr_slow)
  /\ (rsi_ema_strategy.bearish_crossover prev_above current_above = true
      <-> prev_slow < prev_fast /\ curr_fast <= curr_slow)
  /\ (prev_fast <= prev_slow /\ curr_slow < curr_fast ->
      _last_crossover after = Some bullish)
  /\ (prev_slow < prev_fast /\ curr_fast <= curr_slow ->
      _last_crossover after = Some bearish)
  /\ (~ (prev_fast <= prev_slow /\ curr_slow < curr_fast) ->
      ~ (prev_slow < prev_fast /\ curr_fast <= curr_slow) ->
      _last_crossover after = _last_crossover self).
Proof.
  intros Hlen Hcols Hrsi Hfast Hslow Hpf Hps current_above prev_above after.
  apply missing_columns_nil in Hcols.
  pose proof (analyze_memory self df position rsi curr_fast curr_slow
                Hlen Hcols Hrsi Hfast Hslow) as Hmem.
  cbv zeta in Hmem. rewrite Hpf, Hps in Hmem.
  fold current_above in Hmem. fold prev_above in Hmem. fold after in Hmem.
  pose proof (bullish_crossover_iff prev_fast prev_slow curr_fast curr_slow)
    as Hbull.
  pose proof (bearish_crossover_iff prev_fast prev_slow curr_fast curr_slow)
    as Hbear.
  fold current_above in Hbull, Hbear. fold prev_above in Hbull, Hbear.
  split; [exact Hbull|]. split; [exact Hbear|].
  destruct (rsi_ema_strategy.bullish_crossover prev_above current_above) eqn:Eb.
  - rewrite Hmem. split; [reflexivity|]. split.
    + intros [H1 H2]. destruct (proj1 Hbull eq_refl) as [H3 H4].
      exfalso. lra.
    + intros Hn. exfalso. apply Hn. apply Hbull. reflexivity.
  - destruct (rsi_ema_strategy.bearish_crossover prev_above current_above) eqn:Er.
    + rewrite Hmem. split.
      * intros H. apply Hbull in H. discriminate.
      * split; [reflexivity|].
        intros _ Hn. exfalso. apply Hn. apply Hbear. reflexivity.
    + rewrite Hmem. split.
      * intros H. apply Hbull in H. discriminate.
      * split; [|reflexivity].
        intros H. apply Hbear in H. discriminate.
Qed.

Lemma crossover_detection_witness :
  _last_crossover
    (snd (rsi_ema_strategy.analyze stock_strategy df_bullish_cross None))
  = Some bullish.
Proof.
  refine (proj1 (proj2 (proj2
    (crossover_detection stock_strategy df_bullish_cross None 20 3 2 1 2
       _ _ _ _ _ _ _))) _).
  - vm_compute. lia.
  - intros col Hcol. exact Hcol.
  - vm_compute. reflexivity.
  - vm_compute. reflexivity.
  - vm_compute. reflexivity.
  - vm_compute. reflexivity.
  - vm_compute. reflexivity.
  - split; [discriminate|reflexivity].
Defined.

(** C8 as stated fails on ties.  Level averages followed by the fast one
    below the slow one meet the stated bearish condition, and the memory
    is left empty; a fast average above the slow one that comes down to
    equal it does not meet the stated condition, and the memory is set to
    bearish. *)
Lemma crossover_ties_not_as_stated :
  (getitem (iloc_neg df_level_then_below 2) "ema_fast" = Num 1
   /\ getitem (iloc_neg df_level_then_below 2) "ema_slow" = Num 1
   /\ getitem (iloc_neg df_level_then_below 1) "ema_fast" = Num 1
   /\ getitem (iloc_neg df_level_then_below 1) "ema_slow" = Num 2
   /\ spec_bearish 1 1 1 2
   /\ _last_crossover
        (snd (rsi_ema_strategy.analyze stock_strategy df_level_then_below None))
      = None)
  /\ (getitem (iloc_neg df_above_then_level 2) "ema_fast" = Num 2
      /\ getitem (iloc_neg df_above_then_level 2) "ema_slow" = Num 1
      /\ getitem (iloc_neg df_above_then_level 1) "ema_fast" = Num 1
      /\ getitem (iloc_neg df_above_then_level 1) "ema_slow" = Num 1
      /\ ~ spec_bearish 2 1 1 1
      /\ _last_crossover
           (snd (rsi_ema_strategy.analyze stock_strategy df_above_then_level None))
         = Some bearish).
Proof.
  split.
  - repeat split; try (vm_compute; reflexivity); discriminate.
  - repeat split; try (vm_compute; reflexivity).
    intros [_ H]. discriminate H.
Qed.

(** ** The soft failure of [analyze] *)

Lemma confidence_floor (gap : Q) : 0 < gap -> 50 <= Qmin 100 (gap * 3 + 50).
Proof.
  intros H. apply Q.min_glb; [discriminate|lra].
Qed.

(** Past its three guards, [analyze] answers with a confidence of at
    least 50. *)
Lemma analyze_confident self df position rsi ema_fast ema_slow :
  (3 <= len df)%nat ->
  rsi_ema_strategy.missing_columns df = [] ->
  getitem (iloc_neg df 1) "rsi" = Num rsi ->
  getitem (iloc_neg df 1) "ema_fast" = Num ema_fast ->
  getitem (iloc_neg df 1) "ema_slow" = Num ema_slow ->
  50 <= confidence (fst (rsi_ema_strategy.analyze self df position)).
Proof.
  intros Hlen Hcols Hrsi Hfast Hslow.
  unfold rsi_ema_strategy.analyze.
  assert (E : (len df <? 3)%nat = false) by (apply Nat.ltb_ge; exact Hlen).
  rewrite E, Hcols, Hrsi, Hfast, Hslow. cbv zeta.
  set (after := if rsi_ema_strategy.bullish_crossover _ _ then _ else _).
  assert (Hos : rsi_oversold after = rsi_oversold self).
  { unfold after.
    destruct (rsi_ema_strategy.bullish_crossover _ _);
      [|destruct (rsi_ema_strategy.bearish_crossover _ _)]; reflexivity. }
  assert (Hob : rsi_overbought after = rsi_overbought self).
  { unfold after.
    destruct (rsi_ema_strategy.bullish_crossover _ _);
      [|destruct (rsi_ema_strategy.bearish_crossover _ _)]; reflexivity. }
  destruct (Qltb rsi (rsi_oversold after) && _ && _) eqn:Ebuy.
  { cbn [fst confidence].
    apply andb_true_iff in Ebuy as [Ebuy _].
    apply andb_true_iff in Ebuy as [Ebuy _].
    apply Qltb_lt in Ebuy. apply confidence_floor. lra. }
  destruct (Qltb (rsi_overbought after) rsi && _ && _) eqn:Esell.
  { cbn [fst confidence].
    apply andb_true_iff in Esell as [Esell _].
    apply andb_true_iff in Esell as [Esell _].
    apply Qltb_lt in Esell. apply confidence_floor. lra. }
  destruct (_ && _ && Qltb 50 rsi); cbn [fst confidence]; discriminate.
Qed.

(** C9, as the code has it: [analyze] returns HOLD with confidence 0, and
    keeps the strategy as it was, whenever the frame has fewer than 3 rows,
    or one of the columns close, rsi, ema_fast, ema_slow is absent, or one
    of rsi, ema_fast, ema_slow is missing in the latest row; and when the
    frame has at least 3 rows, the four columns, and the four values
    present in each of the latest two rows, the result is not the soft
    failure (its confidence is at least 50). *)
Theorem analyze_soft_failure (self : RsiEmaStrategy) (df : DataFrame)
    (position : option Position) :
  ((len df < 3)%nat
   \/ (exists col, col ∈ rsi_ema_strategy.required /\ col ∉ columns df)
   \/ (exists col, col ∈ ["rsi"; "ema_fast"; "ema_slow"]
                   /\ isna (getitem (iloc_neg df 1) col) = true) ->
   soft_failure (fst (rsi_ema_strategy.analyze self df position))
   /\ snd (rsi_ema_strategy.analyze self df position) = self)
  /\ ((3 <= len df)%nat ->
      (forall col, col ∈ rsi_ema_strategy.required -> col ∈ columns df) ->
      latest_two_present df ->
      ~ soft_failure (fst (rsi_ema_strategy.analyze self df position))
      /\ 50 <= confidence (fst (rsi_ema_strategy.analyze self df position))).
Proof.
  split.
  - intros Hbad. unfold rsi_ema_strategy.analyze.
    destruct (len df <? 3)%nat eqn:Elen.
    { split; [split|]; reflexivity. }
    destruct (rsi_ema_strategy.missing_columns df) as [|c rest] eqn:Ecols.
    2:{ split; [split|]; reflexivity. }
    destruct Hbad as [Hlen|[(col & Hreq & Hout)|(col & Hcol & Hna)]].
    + apply Nat.ltb_ge in Elen. lia.
    + exfalso. apply Hout.
      apply (proj1 (missing_columns_nil df) Ecols). exact Hreq.
    + cbv zeta.
      destruct (getitem (iloc_neg df 1) "rsi") as [rsi|] eqn:Ersi;
        [|split; [split|]; reflexivity].
      destruct (getitem (iloc_neg df 1) "ema_fast") as [ema_fast|] eqn:Efast;
        [|split; [split|]; reflexivity].
      destruct (getitem (iloc_neg df 1) "ema_slow") as [ema_slow|] eqn:Eslow;
        [|split; [split|]; reflexivity].
      exfalso.
      repeat (apply elem_of_cons in Hcol as [->|Hcol];
              [rewrite ?Ersi, ?Efast, ?Eslow in Hna; discriminate|]).
      apply elem_of_nil in Hcol. exact Hcol.
  - intros Hlen Hcols Hpresent.
    assert (Hnum : forall col, col ∈ rsi_ema_strategy.required ->
                     exists x, getitem (iloc_neg df 1) col = Num x).
    { intros col Hcol. specialize (Hpresent 1%nat col (or_introl eq_refl) Hcol).
      destruct (getitem (iloc_neg df 1) col) as [x|]; [eauto|discriminate]. }
    destruct (Hnum "rsi") as [rsi Hrsi]; [set_solver|].
    destruct (Hnum "ema_fast") as [ema_fast Hfast]; [set_solver|].
    destruct (Hnum "ema_slow") as [ema_slow Hslow]; [set_solver|].
    apply missing_columns_nil in Hcols.
    pose proof (analyze_confident self df position rsi ema_fast ema_slow
                  Hlen Hcols Hrsi Hfast Hslow) as Hconf.
    split; [|exact Hconf].
    intros [_ Hzero]. lra.
Qed.

Lemma analyze_soft_failure_witness :
  soft_failure (fst (rsi_ema_strategy.analyze stock_strategy df_short None))
  /\ 50 <= confidence
             (fst (rsi_ema_strategy.analyze stock_strategy df_bullish_cross None)).
Proof.
  split.
  - refine (proj1 (proj1 (analyze_soft_failure stock_strategy df_short None) _)).
    left. vm_compute. lia.
  - refine (proj2 (proj2 (analyze_soft_failure stock_strategy df_bullish_cross
                            None) _ _ _)).
    + vm_compute. lia.
    + intros col Hcol. exact Hcol.
    + intros k col [->| ->] Hcol;
        repeat (apply elem_of_cons in Hcol as [->|Hcol];
                [vm_compute; reflexivity|]);
        apply elem_of_nil in Hcol; destruct Hcol.
Defined.

(** C9 as stated fails when the missing value is the latest close or sits
    in the row before the latest: with the previous row all NaN the answer
    is BUY with confidence 80, and with the latest close NaN it is HOLD
    with confidence 50; neither is the soft failure. *)
Lemma analyze_proceeds_on_unchecked_nan :
  (isna (getitem (iloc_neg df_previous_nan 2) "ema_fast") = true
   /\ signal (fst (rsi_ema_strategy.analyze stock_strategy df_previous_nan None))
      = BUY
   /\ confidence (fst (rsi_ema_strategy.analyze stock_strategy df_previous_nan None))
      == 80
   /\ ~ soft_failure
          (fst (rsi_ema_strategy.analyze stock_strategy df_previous_nan None)))
  /\ (isna (getitem (iloc_neg df_close_nan 1) "close") = true
      /\ confidence (fst (rsi_ema_strategy.analyze stock_strategy df_close_nan None))
         == 50
      /\ ~ soft_failure
             (fst (rsi_ema_strategy.analyze stock_strategy df_close_nan None))).
Proof.
  split.
  - split; [vm_compute; reflexivity|]. split; [vm_compute; reflexivity|].
    split; [vm_compute; reflexivity|].
    intros [H _]. vm_compute in H. discriminate H.
  - split; [vm_compute; reflexivity|]. split; [vm_compute; reflexivity|].
    intros [_ H]. vm_compute in H. discriminate H.
Qed.

(** * Further properties of the ledger and the executor *)

(** ** Fills, run to the end state *)

Lemma market_buy_settled self now symbol q db fill db' :
  executor.market_buy self now symbol q db = (Ok (Bought fill), db') ->
  exists p,
    price_of symbol db = Some p
    /\ 0 < q
    /\ ~ p == 0
    /\ q + q * fee_percent (acct self) <= cash_of db
    /\ fill = mkBuyFill (trades_seq db + 1) symbol (q / p) p q
                (q * fee_percent (acct self))
                (q + q * fee_percent (acct self)) now
    /\ db' = settle now (buy_positions symbol q p (positions db))
               (cash_of db - (q + q * fee_percent (acct self)))
               (fun id => mkTrade id symbol buy (q / p) p
                            (q * fee_percent (acct self)) now 0)
               db.
Proof.
  unfold executor.market_buy.
  destruct (Qle_bool q 0) eqn:Eq; [discriminate|].
  apply Qle_bool_gt in Eq.
  erewrite bind_ok by apply get_current_price_run.
  destruct (price_of symbol db) as [price|]; [|discriminate].
  erewrite bind_ok by apply can_afford_run.
  destruct (Qle_bool _ (cash_of db)) eqn:Ec; cbn [negb].
  2:{ erewrite bind_ok by apply get_cash_balance_run. discriminate. }
  apply Qle_bool_iff in Ec. unfold account_py.calculate_fee in Ec.
  destruct (Qeq_bool price 0) eqn:Ep.
  { erewrite bind_raise by (rewrite float_div_run, Ep; reflexivity).
    discriminate. }
  erewrite bind_ok by (rewrite float_div_run, Ep; reflexivity).
  apply Qeq_bool_false in Ep.
  erewrite bind_ok by apply get_position_run.
  unfold buy_positions.
  destruct (positions db !! symbol) as [existing|].
  - destruct (Qeq_bool (amount existing + q / price) 0) eqn:En.
    { erewrite bind_raise
        by (erewrite bind_raise by (rewrite float_div_run, En; reflexivity);
            reflexivity).
      discriminate. }
    erewrite bind_ok
      by (erewrite bind_ok by (rewrite float_div_run, En; reflexivity);
          apply update_position_run).
    erewrite bind_ok by apply get_cash_balance_run.
    erewrite bind_ok by apply update_cash_balance_run.
    unfold_m. unfold database.log_trade. intros [= <- <-].
    exists price. repeat split; auto.
  - erewrite bind_ok by apply update_position_run.
    erewrite bind_ok by apply get_cash_balance_run.
    erewrite bind_ok by apply update_cash_balance_run.
    unfold_m. unfold database.log_trade. intros [= <- <-].
    exists price. repeat split; auto.
Qed.

Lemma market_sell_settled self now symbol base db fill db' :
  executor.market_sell self now symbol base db = (Ok (Sold fill), db') ->
  exists pos p,
    positions db !! symbol = Some pos
    /\ price_of symbol db = Some p
    /\ 0 < base
    /\ base <= amount pos
    /\ fill = mkSellFill (trades_seq db + 1) symbol base p (base * p)
                (base * p * fee_percent (acct self))
                (base * p - base * p * fee_percent (acct self))
                (base * p - base * p * fee_percent (acct self)
                 - base * avg_entry_price pos) now
    /\ db' = settle now (sell_positions symbol base pos (positions db))
               (cash_of db + (base * p - base * p * fee_percent (acct self)))
               (fun id => mkTrade id symbol sell base p
                            (base * p * fee_percent (acct self)) now
                            (base * p - base * p * fee_percent (acct self)
                             - base * avg_entry_price pos))
               db.
Proof.
  unfold executor.market_sell.
  destruct (Qle_bool base 0) eqn:Eb; [discriminate|].
  apply Qle_bool_gt in Eb.
  erewrite bind_ok by apply get_position_run.
  destruct (positions db !! symbol) as [pos|]; [|discriminate].
  destruct (Qltb (amount pos) base) eqn:Eh; [discriminate|].
  apply Qltb_ge in Eh.
  erewrite bind_ok by apply get_current_price_run.
  destruct (price_of symbol db) as [p|]; [|discriminate].
  unfold sell_positions.
  destruct (Qle_bool (amount pos - base) epsilon) eqn:Ed;
    erewrite bind_ok by apply update_position_run;
    erewrite bind_ok by apply get_cash_balance_run;
    erewrite bind_ok by apply update_cash_balance_run;
    unfold_m; unfold database.log_trade; intros [= <- <-];
    exists pos, p; rewrite Ed; repeat split; auto.
Qed.

Lemma store_position_lookup_ne symbol other a e ps :
  other <> symbol -> store_position symbol a e ps !! other = ps !! other.
Proof.
  intros Hne. unfold store_position. destruct (Qle_bool a 0).
  - apply lookup_delete_ne. congruence.
  - apply lookup_insert_ne. congruence.
Qed.

Lemma store_position_positive symbol a e ps :
  (forall s pos, ps !! s = Some pos -> 0 < amount pos) ->
  forall s pos, store_position symbol a e ps !! s = Some pos -> 0 < amount pos.
Proof.
  intros Hps s pos. destruct (decide (s = symbol)) as [->|Hne].
  - rewrite store_position_lookup. destruct (Qle_bool a 0) eqn:E; [discriminate|].
    intros [= <-]. apply Qle_bool_gt. exact E.
  - rewrite store_position_lookup_ne by exact Hne. apply Hps.
Qed.

Lemma buy_positions_lookup_ne symbol other q p ps :
  other <> symbol -> buy_positions symbol q p ps !! other = ps !! other.
Proof.
  intros Hne. unfold buy_positions.
  destruct (ps !! symbol); apply store_position_lookup_ne; exact Hne.
Qed.

Lemma sell_positions_lookup_ne symbol other base pos ps :
  other <> symbol -> sell_positions symbol base pos ps !! other = ps !! other.
Proof.
  intros Hne. unfold sell_positions.
  destruct (Qle_bool _ epsilon); apply store_position_lookup_ne; exact Hne.
Qed.


Lemma positive_positions_holding : positive_positions db_holding.
Proof.
  intros symbol pos H. unfold db_holding in H. cbn [positions] in H.
  apply lookup_singleton_Some in H as [_ <-]. reflexivity.
Qed.



(** ** Filled buys *)



(** X2: whatever a [market_buy] answers, it does not overdraw: a
    non-negative cash balance stays non-negative, and after a fill the
    cash is non-negative and lower by exactly the reported total cost. *)
Theorem market_buy_never_overdraws (self : TradeExecutor) (now : Z)
    (symbol : string) (q : Q) (db : Db) (o : outcome TradeResult) (db' : Db) :
  executor.market_buy self now symbol q db = (o, db') ->
  (0 <= cash_of db -> 0 <= cash_of db')
  /\ (forall fill, o = Ok (Bought fill) ->
        0 <= cash_of db' /\ cash_of db' = cash_of db - b_total_cost fill).
Proof.
  intros Hrun.
  destruct (market_buy_cases self now symbol q db)
    as [(o1 & E & Hno)|(fill & db1 & E)].
  - rewrite E in Hrun. injection Hrun as <- <-. split; [auto|].
    intros fill ->. exfalso. exact (Hno fill eq_refl).
  - rewrite E in Hrun. injection Hrun as <- <-.
    destruct (market_buy_settled _ _ _ _ _ _ _ E)
      as (p & _ & _ & _ & Hcash & -> & ->).
    cbn [settle cash_of account cash_balance].
    split; [intros _; lra|].
    intros fill [= <-]. cbn [b_total_cost]. split; [lra|reflexivity].
Qed.

Lemma market_buy_never_overdraws_witness :
  0 <= cash_of (snd (executor.market_buy trader 5 btc 1000 db_funded))
  /\ 0 <= cash_of (snd (executor.market_buy trader 5 btc 20000 db_funded)).
Proof.
  split.
  - refine (proj1 (market_buy_never_overdraws trader 5 btc 1000 db_funded
                     (fst (executor.market_buy trader 5 btc 1000 db_funded))
                     _ _) _).
    + vm_compute. reflexivity.
    + vm_compute. discriminate.
  - refine (proj1 (market_buy_never_overdraws trader 5 btc 20000 db_funded
                     (fst (executor.market_buy trader 5 btc 20000 db_funded))
                     _ _) _).
    + vm_compute. reflexivity.
    + vm_compute. discriminate.
Defined.

(** ** Invariants of trading *)

(** X3: a [market_sell] never lowers the cash when the price quoted is not
    negative and the fee rate is at most 1: rejected, the cash is as it
    was; filled, it grows by the net proceeds, which are not negative. *)
Theorem market_sell_never_lowers_cash (self : TradeExecutor) (now : Z)
    (symbol : string) (base : Q) (db : Db) (p : Q)
    (o : outcome TradeResult) (db' : Db) :
  price_of symbol db = Some p ->
  0 <= p ->
  fee_percent (acct self) <= 1 ->
  executor.market_sell self now symbol base db = (o, db') ->
  cash_of db <= cash_of db'
  /\ (forall fill, o = Ok (Sold fill) ->
        0 <= s_net_proceeds fill
        /\ cash_of db' = cash_of db + s_net_proceeds fill).
Proof.
  intros Hprice Hp Hfee Hrun.
  destruct (market_sell_cases self now symbol base db)
    as [(o1 & E & Hno)|(fill & db1 & E)].
  - rewrite E in Hrun. injection Hrun as <- <-. split; [apply Qle_refl|].
    intros fill ->. exfalso. exact (Hno fill eq_refl).
  - rewrite E in Hrun. injection Hrun as <- <-.
    destruct (market_sell_settled _ _ _ _ _ _ _ E)
      as (pos & p' & _ & Hprice' & Hbase & _ & -> & ->).
    rewrite Hprice in Hprice'. injection Hprice' as <-.
    cbn [settle cash_of account cash_balance].
    assert (Hnet : 0 <= base * p - base * p * fee_percent (acct self)).
    { assert (H1 : 0 <= base * p) by (apply Qmult_le_0_compat; lra).
      assert (H2 : 0 <= base * p * (1 - fee_percent (acct self)))
        by (apply Qmult_le_0_compat; lra).
      lra. }
    split; [lra|].
    intros fill [= <-]. cbn [s_net_proceeds]. split; [exact Hnet|reflexivity].
Qed.

Lemma market_sell_never_lowers_cash_witness :
  cash_of db_holding
  <= cash_of (snd (executor.market_sell trader 9 btc (1 # 100) db_holding)).
Proof.
  refine (proj1 (market_sell_never_lowers_cash trader 9 btc (1 # 100) db_holding
                   50000
                   (fst (executor.market_sell trader 9 btc (1 # 100) db_holding))
                   _ _ _ _ _)).
  - vm_compute. reflexivity.
  - vm_compute. discriminate.
  - vm_compute. discriminate.
  - vm_compute. reflexivity.
Defined.

(** X4: trading keeps every stored amount strictly positive: if no row of
    [positions] holds a zero or negative amount before a [market_buy] or a
    [market_sell], none does after it, whatever the call answers. *)
Theorem trading_keeps_positions_positive (self : TradeExecutor) (now : Z)
    (symbol : string) (amount_ : Q) (db : Db)
    (o : outcome TradeResult) (db' : Db) :
  positive_positions db ->
  executor.market_buy self now symbol amount_ db = (o, db')
  \/ executor.market_sell self now symbol amount_ db = (o, db') ->
  positive_positions db'.
Proof.
  intros Hpos [Hrun|Hrun].
  - destruct (market_buy_cases self now symbol amount_ db)
      as [(o1 & E & _)|(fill & db1 & E)];
      rewrite E in Hrun; injection Hrun as <- <-; [exact Hpos|].
    destruct (market_buy_settled _ _ _ _ _ _ _ E) as (p & _ & _ & _ & _ & _ & ->).
    intros s pos. cbn [settle positions]. unfold buy_positions.
    destruct (positions db !! symbol);
      apply store_position_positive; exact Hpos.
  - destruct (market_sell_cases self now symbol amount_ db)
      as [(o1 & E & _)|(fill & db1 & E)];
      rewrite E in Hrun; injection Hrun as <- <-; [exact Hpos|].
    destruct (market_sell_settled _ _ _ _ _ _ _ E)
      as (held & p & _ & _ & _ & _ & _ & ->).
    intros s pos. cbn [settle positions]. unfold sell_positions.
    destruct (Qle_bool _ epsilon);
      apply store_position_positive; exact Hpos.
Qed.

Lemma trading_keeps_positions_positive_witness :
  positive_positions (snd (executor.market_sell trader 9 btc (1 # 100) db_holding)).
Proof.
  refine (trading_keeps_positions_positive trader 9 btc (1 # 100) db_holding
            (fst (executor.market_sell trader 9 btc (1 # 100) db_holding))
            _ positive_positions_holding (or_intror _)).
  vm_compute. reflexivity.
Defined.

(** X5: a [market_buy] or [market_sell] of one symbol never touches the
    position of another symbol, nor the cached market data, whatever it
    answers. *)
Theorem trading_leaves_other_symbols (self : TradeExecutor) (now : Z)
    (symbol other : string) (amount_ : Q) (db : Db)
    (o : outcome TradeResult) (db' : Db) :
  other <> symbol ->
  executor.market_buy self now symbol amount_ db = (o, db')
  \/ executor.market_sell self now symbol amount_ db = (o, db') ->
  positions db' !! other = positions db !! other
  /\ ohlcv db' = ohlcv db.
Proof.
  intros Hne [Hrun|Hrun].
  - destruct (market_buy_cases self now symbol amount_ db)
      as [(o1 & E & _)|(fill & db1 & E)];
      rewrite E in Hrun; injection Hrun as <- <-; [split; reflexivity|].
    destruct (market_buy_settled _ _ _ _ _ _ _ E) as (p & _ & _ & _ & _ & _ & ->).
    cbn [settle positions ohlcv]. split; [|reflexivity].
    apply buy_positions_lookup_ne. exact Hne.
  - destruct (market_sell_cases self now symbol amount_ db)
      as [(o1 & E & _)|(fill & db1 & E)];
      rewrite E in Hrun; injection Hrun as <- <-; [split; reflexivity|].
    destruct (market_sell_settled _ _ _ _ _ _ _ E)
      as (held & p & _ & _ & _ & _ & _ & ->).
    cbn [settle positions ohlcv]. split; [|reflexivity].
    apply sell_positions_lookup_ne. exact Hne.
Qed.

Lemma trading_leaves_other_symbols_witness :
  positions (snd (executor.market_buy trader 5 "ETH/USD" 1000 db_holding)) !! btc
  = positions db_holding !! btc.
Proof.
  refine (proj1 (trading_leaves_other_symbols trader 5 "ETH/USD" btc 1000
                   db_holding
                   (fst (executor.market_buy trader 5 "ETH/USD" 1000 db_holding))
                   _ _ (or_introl _))).
  - vm_compute. discriminate.
  - vm_compute. reflexivity.
Defined.

(** X6: after a filled buy or sell the stored total equity is fresh: it is
    the new cash plus every open position valued at its current mark, the
    figure [calculate_total_equity] returns on the store left. *)
Theorem fills_refresh_equity (self : TradeExecutor) (now : Z)
    (symbol : string) (amount_ : Q) (db : Db) (bought : BuyFill)
    (sold : SellFill) (db' : Db) :
  executor.market_buy self now symbol amount_ db = (Ok (Bought bought), db')
  \/ executor.market_sell self now symbol amount_ db = (Ok (Sold sold), db') ->
  equity_fresh db'
  /\ account_py.calculate_total_equity (acct self) None db'
     = (Ok (default 0 (total_equity <$> account db')), db').
Proof.
  intros Hrun.
  assert (Hsettled : exists ps cash trade, db' = settle now ps cash trade db).
  { destruct Hrun as [Hrun|Hrun].
    - destruct (market_buy_settled _ _ _ _ _ _ _ Hrun)
        as (p & _ & _ & _ & _ & _ & ->).
      eauto.
    - destruct (market_sell_settled _ _ _ _ _ _ _ Hrun)
        as (held & p & _ & _ & _ & _ & _ & ->).
      eauto. }
  destruct Hsettled as (ps & cash & trade & ->).
  split.
  - eexists. split; [reflexivity|]. reflexivity.
  - rewrite calculate_total_equity_default_run. reflexivity.
Qed.

Lemma fills_refresh_equity_witness :
  equity_fresh (snd (executor.market_buy trader 5 btc 1000 db_funded)).
Proof.
  refine (proj1 (fills_refresh_equity trader 5 btc 1000 db_funded
                   (mkBuyFill 1 btc (1000 / 50000) 50000 1000
                      (1000 * fee_percent paper)
                      (1000 + 1000 * fee_percent paper) 5)
                   (mkSellFill 0 btc 0 0 0 0 0 0 0)
                   _ (or_introl _))).
  vm_compute. reflexivity.
Defined.

(** ** Filtering rows *)

Lemma List_filter_perm {A} (f : A -> bool) (l1 l2 : list A) :
  l1 ≡ₚ l2 -> List.filter f l1 ≡ₚ List.filter f l2.
Proof.
  induction 1 as [|x l1 l2 _ IH|x y l|l1 l2 l3 _ IH1 _ IH2]; cbn [List.filter].
  - reflexivity.
  - destruct (f x); [constructor|]; exact IH.
  - destruct (f x), (f y); try reflexivity. apply perm_swap.
  - etransitivity; eassumption.
Qed.

(** ** Marks *)

Lemma mark_price_quoted db symbol pos p :
  price_of symbol db = Some p -> ~ p == 0 -> mark_price db symbol pos = p.
Proof.
  intros Hprice Hp. unfold mark_price, truthy. rewrite Hprice.
  apply Qeq_bool_false in Hp. rewrite Hp. reflexivity.
Qed.

(** X9: [sell_all] on a held symbol with a price sells exactly the amount
    held and removes the position, whatever the amount and the price; the
    cash grows by the net proceeds of the whole amount. *)
Theorem sell_all_closes (self : TradeExecutor) (now : Z) (symbol : string)
    (db : Db) (pos : Position) (p : Q) :
  positions db !! symbol = Some pos ->
  0 < amount pos ->
  price_of symbol db = Some p ->
  exists fill db',
    executor.sell_all self now symbol db = (Ok (Sold fill), db')
    /\ s_amount fill = amount pos
    /\ positions db' !! symbol = None
    /\ cash_of db'
       = cash_of db
         + (amount pos * p - amount pos * p * fee_percent (acct self)).
Proof.
  intros Hheld Ha Hprice.
  unfold executor.sell_all.
  erewrite bind_ok by apply get_position_run. rewrite Hheld.
  destruct (market_sell_run self now symbol (amount pos) db pos p
              Ha Hheld (Qle_refl _) Hprice)
    as (trade_id & db' & Hrun & Hps & Hcash & _ & _).
  cbv zeta in Hrun, Hps, Hcash.
  eexists. exists db'. split; [exact Hrun|]. split; [reflexivity|].
  split; [|exact Hcash].
  assert (Hdust : Qle_bool (amount pos - amount pos) epsilon = true).
  { apply Qle_bool_iff. assert (amount pos - amount pos == 0) as -> by ring.
    discriminate. }
  rewrite Hps, Hdust, store_position_lookup. reflexivity.
Qed.

Lemma sell_all_closes_witness :
  exists fill db',
    executor.sell_all trader 9 btc db_holding = (Ok (Sold fill), db')
    /\ s_amount fill = 1 # 50
    /\ positions db' !! btc = None.
Proof.
  destruct (sell_all_closes trader 9 btc db_holding
              (mkPosition (1 # 50) 50000 0) 50000)
    as (fill & db' & Hrun & Hamt & Hgone & _).
  - vm_compute. reflexivity.
  - reflexivity.
  - vm_compute. reflexivity.
  - exists fill, db'. split; [exact Hrun|]. split; [exact Hamt|exact Hgone].
Defined.

(** X11: what [market_buy] answers when it does not fill, in the order of
    its checks: a non-positive amount is refused first; then a symbol
    without price; then a cost above the cash, the error naming the cash
    at hand and the cost with its fee; and a quoted price of zero, which
    passes these checks, raises ZeroDivisionError.  The store is the same
    in each case. *)
Theorem market_buy_rejections (self : TradeExecutor) (now : Z)
    (symbol : string) (q : Q) (db : Db) :
  (q <= 0 ->
   executor.market_buy self now symbol q db
   = (Ok (Failure TradeAmountMustBePositive symbol buy), db))
  /\ (0 < q -> price_of symbol db = None ->
      executor.market_buy self now symbol q db
      = (Ok (Failure (NoPriceData symbol) symbol buy), db))
  /\ (forall p, 0 < q -> price_of symbol db = Some p ->
      cash_of db < q + q * fee_percent (acct self) ->
      executor.market_buy self now symbol q db
      = (Ok (Failure (InsufficientBalance (cash_of db)
                        (q + q * fee_percent (acct self))) symbol buy), db))
  /\ (forall p, 0 < q -> price_of symbol db = Some p ->
      q + q * fee_percent (acct self) <= cash_of db ->
      p == 0 ->
      executor.market_buy self now symbol q db = (Raise ZeroDivisionError, db)).
Proof.
  unfold executor.market_buy. repeat split.
  - intros Hq. apply Qle_bool_iff in Hq. rewrite Hq. reflexivity.
  - intros Hq Hprice. apply Qle_bool_gt in Hq. rewrite Hq.
    erewrite bind_ok by apply get_current_price_run. rewrite Hprice.
    reflexivity.
  - intros p Hq Hprice Hcash. apply Qle_bool_gt in Hq. rewrite Hq.
    erewrite bind_ok by apply get_current_price_run. rewrite Hprice.
    erewrite bind_ok by apply can_afford_run.
    unfold account_py.calculate_fee.
    apply Qle_bool_gt in Hcash. rewrite Hcash. cbn [negb].
    erewrite bind_ok by apply get_cash_balance_run. reflexivity.
  - intros p Hq Hprice Hcash Hzero. apply Qle_bool_gt in Hq. rewrite Hq.
    erewrite bind_ok by apply get_current_price_run. rewrite Hprice.
    erewrite bind_ok by apply can_afford_run.
    unfold account_py.calculate_fee.
    apply Qle_bool_iff in Hcash. rewrite Hcash. cbn [negb].
    apply Qeq_bool_iff in Hzero.
    erewrite bind_raise by (rewrite float_div_run, Hzero; reflexivity).
    reflexivity.
Qed.

(** X12: what [market_sell] and [sell_all] answer when they do not fill,
    in the order of the checks: a non-positive amount is refused before
    the position is looked at; then a symbol not held; then an amount
    above the amount held, the error naming both; and only then a missing
    price.  [sell_all] refuses a symbol not held the same way.  The store
    is the same in each case. *)
Theorem market_sell_rejections (self : TradeExecutor) (now : Z)
    (symbol : string) (base : Q) (db : Db) :
  (base <= 0 ->
   executor.market_sell self now symbol base db
   = (Ok (Failure SellAmountMustBePositive symbol sell), db))
  /\ (0 < base -> positions db !! symbol = None ->
      executor.market_sell self now symbol base db
      = (Ok (Failure (NoPosition symbol) symbol sell), db))
  /\ (forall pos, 0 < base -> positions db !! symbol = Some pos ->
      amount pos < base ->
      executor.market_sell self now symbol base db
      = (Ok (Failure (InsufficientPosition symbol (amount pos) base)
               symbol sell), db))
  /\ (forall pos, 0 < base -> positions db !! symbol = Some pos ->
      base <= amount pos -> price_of symbol db = None ->
      executor.market_sell self now symbol base db
      = (Ok (Failure (NoPriceData symbol) symbol sell), db))
  /\ (positions db !! symbol = None ->
      executor.sell_all self now symbol db
      = (Ok (Failure (NoPosition symbol) symbol sell), db)).
Proof.
  unfold executor.market_sell, executor.sell_all. repeat split.
  - intros Hb. apply Qle_bool_iff in Hb. rewrite Hb. reflexivity.
  - intros Hb Hnone. apply Qle_bool_gt in Hb. rewrite Hb.
    erewrite bind_ok by apply get_position_run. rewrite Hnone. reflexivity.
  - intros pos Hb Hheld Hlt. apply Qle_bool_gt in Hb. rewrite Hb.
    erewrite bind_ok by apply get_position_run. rewrite Hheld.
    apply Qltb_lt in Hlt. rewrite Hlt. reflexivity.
  - intros pos Hb Hheld Hle Hprice. apply Qle_bool_gt in Hb. rewrite Hb.
    erewrite bind_ok by apply get_position_run. rewrite Hheld.
    apply Qltb_ge in Hle. rewrite Hle.
    erewrite bind_ok by apply get_current_price_run. rewrite Hprice.
    reflexivity.
  - intros Hnone.
    erewrite bind_ok by apply get_position_run. rewrite Hnone. reflexivity.
Qed.

(** * Further properties of the account *)

(** X13: the constructor of [PaperAccount] opens the account only when
    there is none: on a store without account row it writes cash and
    equity equal to the starting balance (the configured 10,000 when the
    argument is absent or zero), so that [get_cash_balance] then returns
    the starting balance; on a store with an account row it changes
    nothing, whatever starting balance is passed. *)
Theorem init_opens_account_once (now : Z) (arg : option Q) (db : Db) :
  exists self db',
    account_py.init now arg db = (Ok self, db')
    /\ starting_balance self
       = match arg with
         | Some b => if Qeq_bool b 0 then config.STARTING_BALANCE_USDT else b
         | None => config.STARTING_BALANCE_USDT
         end
    /\ fee_percent self == 1 # 1000
    /\ (account db = None ->
        account db' = Some (mkAccount (starting_balance self)
                              (starting_balance self) now)
        /\ account_py.get_cash_balance self db'
           = (Ok (starting_balance self), db'))
    /\ (forall a, account db = Some a -> db' = db).
Proof.
  unfold account_py.init.
  erewrite bind_ok by apply initialize_account_run.
  eexists. eexists. split; [reflexivity|].
  cbn [starting_balance fee_percent]. split.
  { destruct arg as [b|]; [|reflexivity]. unfold truthy.
    destruct (Qeq_bool b 0); reflexivity. }
  split; [reflexivity|]. split.
  - intros Hnone. rewrite Hnone. split; [reflexivity|].
    rewrite get_cash_balance_run. reflexivity.
  - intros a Hsome. rewrite Hsome. reflexivity.
Qed.

(** X14: [reset_account] leaves a store with no trade, no position, no
    equity snapshot and no cached candle, and an account whose cash and
    total equity both equal the starting balance; the equity recomputed
    from that store is the starting balance too. *)
Theorem reset_account_restores (self : PaperAccount) (now : Z) (db : Db) :
  exists db',
    account_py.reset_account self now db = (Ok tt, db')
    /\ account db' = Some (mkAccount (starting_balance self)
                             (starting_balance self) now)
    /\ trades db' = []
    /\ positions db' = ∅
    /\ equity_history db' = []
    /\ ohlcv db' = []
    /\ account_py.get_cash_balance self db' = (Ok (starting_balance self), db')
    /\ exists e, account_py.calculate_total_equity self None db' = (Ok e, db')
                 /\ e == starting_balance self.
Proof.
  unfold account_py.reset_account.
  erewrite bind_ok by (unfold database.reset_database, modify; reflexivity).
  rewrite initialize_account_run. cbn [account].
  eexists. split; [reflexivity|].
  cbn [set_account account trades positions equity_history ohlcv].
  repeat (split; [reflexivity|]).
  eexists. split; [apply calculate_total_equity_default_run|].
  unfold equity_of, open_positions. cbn [positions set_account].
  rewrite map_to_list_empty. cbn. ring.
Qed.

(** X15: [record_equity_snapshot] returns the equity of the store (cash
    plus positions at their marks), appends one snapshot carrying it, and
    changes no other table; taken twice in a row it returns the same
    value and appends two snapshots. *)
Theorem record_equity_snapshot_appends (self : PaperAccount) (t1 t2 : Z)
    (db : Db) :
  let e := equity_of (cash_of db) db in
  exists db1 db2,
    account_py.record_equity_snapshot self t1 db = (Ok e, db1)
    /\ equity_history db1 = equity_history db ++ [(t1, e)]
    /\ account db1 = account db
    /\ positions db1 = positions db
    /\ trades db1 = trades db
    /\ ohlcv db1 = ohlcv db
    /\ account_py.record_equity_snapshot self t2 db1 = (Ok e, db2)
    /\ equity_history db2 = equity_history db ++ [(t1, e); (t2, e)].
Proof.
  intros e. unfold account_py.record_equity_snapshot.
  erewrite bind_ok by apply calculate_total_equity_default_run.
  erewrite bind_ok by (unfold database.record_equity, modify; reflexivity).
  eexists. eexists. split; [reflexivity|].
  cbn [equity_history account positions trades ohlcv].
  repeat (split; [reflexivity|]).
  erewrite bind_ok by apply calculate_total_equity_default_run.
  erewrite bind_ok by (unfold database.record_equity, modify; reflexivity).
  split; [reflexivity|].
  cbn [equity_history]. rewrite <- app_assoc. reflexivity.
Qed.

(** ** Unrealized PnL *)

Lemma calculate_unrealized_pnl_run self symbol p db :
  account_py.calculate_unrealized_pnl self symbol p db
  = (Ok (match positions db !! symbol with
         | Some pos => amount pos * p - amount pos * avg_entry_price pos
         | None => 0
         end), db).
Proof.
  unfold account_py.calculate_unrealized_pnl.
  erewrite bind_ok by apply get_position_run.
  destruct (positions db !! symbol); reflexivity.
Qed.

(** X17: [get_position_value] returns (0, 0) for a symbol not held; for a
    held one it returns the amount valued at the latest price and the
    unrealized PnL that [calculate_unrealized_pnl] gives at that price, and
    without a price it values the position at its average entry price, so
    that the unrealized PnL is zero.  For a non-zero price the value is
    the one [calculate_total_equity] counts for the position.  The store
    is left as it is. *)
Theorem position_value_marks (self : TradeExecutor) (symbol : string)
    (db : Db) :
  (positions db !! symbol = None ->
   executor.get_position_value self symbol db = (Ok (0, 0), db))
  /\ (forall pos, positions db !! symbol = Some pos ->
      exists v u,
        executor.get_position_value self symbol db = (Ok (v, u), db)
        /\ (price_of symbol db = None ->
            v = amount pos * avg_entry_price pos /\ u == 0)
        /\ (forall p, price_of symbol db = Some p ->
            v = amount pos * p
            /\ account_py.calculate_unrealized_pnl (acct self) symbol p db
               = (Ok u, db)
            /\ (~ p == 0 -> v = amount pos * mark_price db symbol pos))).
Proof.
  unfold executor.get_position_value. split.
  - intros Hnone.
    erewrite bind_ok by apply get_position_run. rewrite Hnone. reflexivity.
  - intros pos Hheld.
    erewrite bind_ok by apply get_position_run. rewrite Hheld.
    erewrite bind_ok by apply get_current_price_run.
    eexists. eexists. split; [reflexivity|]. split.
    + intros Hnone. rewrite Hnone. split; [reflexivity|ring].
    + intros p Hprice. rewrite Hprice. split; [reflexivity|]. split.
      * rewrite calculate_unrealized_pnl_run, Hheld. reflexivity.
      * intros Hp.
        rewrite (mark_price_quoted db symbol pos p Hprice Hp). reflexivity.
Qed.

(** * Further properties of the database layer *)

(** ** Caching candles *)

Lemma latest_row_snoc_newest symbol rows c :
  c_symbol c = symbol ->
  (forall d, d ∈ rows -> c_symbol d = symbol ->
     (c_timestamp d < c_timestamp c)%Z) ->
  database.latest_row symbol (rows ++ [c]) = Some c.
Proof.
  intros Hsym. induction rows as [|d rows IH]; intros Hold.
  - cbn. rewrite Hsym, String.eqb_refl. reflexivity.
  - cbn [app]. unfold database.latest_row in *. cbn [foldr].
    rewrite IH by (intros d' Hd'; apply Hold; right; exact Hd').
    destruct (String.eqb (c_symbol d) symbol) eqn:Ed; [|reflexivity].
    apply String.eqb_eq in Ed.
    assert (Hlt : (c_timestamp d < c_timestamp c)%Z)
      by (apply Hold; [left|exact Ed]).
    unfold database.newer.
    replace (c_timestamp c <? c_timestamp d)%Z with false; [reflexivity|].
    symmetry. apply Z.ltb_ge. lia.
Qed.

Lemma latest_row_snoc_other symbol rows c :
  c_symbol c <> symbol ->
  database.latest_row symbol (rows ++ [c]) = database.latest_row symbol rows.
Proof.
  intros Hsym. unfold database.latest_row. rewrite foldr_app. cbn [foldr].
  replace (String.eqb (c_symbol c) symbol) with false; [reflexivity|].
  symmetry. apply String.eqb_neq. exact Hsym.
Qed.

Lemma latest_row_filter_other symbol (f : Candle -> bool) rows :
  (forall d, c_symbol d = symbol -> f d = true) ->
  database.latest_row symbol (List.filter f rows)
  = database.latest_row symbol rows.
Proof.
  intros Hkeep. unfold database.latest_row.
  induction rows as [|d rows IH]; [reflexivity|].
  cbn [List.filter foldr].
  destruct (String.eqb (c_symbol d) symbol) eqn:Ed.
  - apply String.eqb_eq in Ed. rewrite (Hkeep d Ed). cbn [foldr].
    rewrite IH. apply String.eqb_eq in Ed. rewrite Ed. reflexivity.
  - destruct (f d); [cbn [foldr]; rewrite Ed|]; exact IH.
Qed.

Lemma insert_or_replace_elem rows c d :
  d ∈ database.insert_or_replace rows c -> d ∈ rows \/ d = c.
Proof.
  unfold database.insert_or_replace. intros H.
  apply elem_of_app in H as [H|H].
  - left. apply list_elem_of_In, filter_In in H as [H _].
    apply list_elem_of_In. exact H.
  - right. apply list_elem_of_singleton in H. exact H.
Qed.

Lemma fold_insert_or_replace_elem cs : forall rows d,
  d ∈ fold_left database.insert_or_replace cs rows -> d ∈ rows \/ d ∈ cs.
Proof.
  induction cs as [|c cs IH]; intros rows d H; cbn [fold_left] in H.
  - left. exact H.
  - apply IH in H as [H|H].
    + apply insert_or_replace_elem in H as [H| ->]; [left; exact H|].
      right. left.
    + right. right. exact H.
Qed.

Lemma insert_or_replace_latest symbol rows c :
  c_symbol c = symbol ->
  (forall d, d ∈ rows -> c_symbol d = symbol ->
     (c_timestamp d <= c_timestamp c)%Z) ->
  database.latest_row symbol (database.insert_or_replace rows c) = Some c.
Proof.
  intros Hsym Hold. unfold database.insert_or_replace.
  apply latest_row_snoc_newest; [exact Hsym|].
  intros d Hd Hds.
  apply list_elem_of_In, filter_In in Hd as [Hd Hkey].
  apply list_elem_of_In in Hd.
  pose proof (Hold d Hd Hds) as Hle.
  unfold database.same_key in Hkey.
  rewrite Hsym, Hds, String.eqb_refl in Hkey. cbn [andb] in Hkey.
  apply negb_true_iff, Z.eqb_neq in Hkey. lia.
Qed.

Lemma insert_or_replace_other symbol rows c :
  c_symbol c <> symbol ->
  database.latest_row symbol (database.insert_or_replace rows c)
  = database.latest_row symbol rows.
Proof.
  intros Hsym. unfold database.insert_or_replace.
  rewrite latest_row_snoc_other by exact Hsym.
  apply latest_row_filter_other.
  intros d Hd. unfold database.same_key.
  replace (String.eqb (c_symbol c) (c_symbol d)) with false; [reflexivity|].
  symmetry. apply String.eqb_neq. congruence.
Qed.

Lemma fold_insert_or_replace_other symbol cs : forall rows,
  (forall c, c ∈ cs -> c_symbol c <> symbol) ->
  database.latest_row symbol (fold_left database.insert_or_replace cs rows)
  = database.latest_row symbol rows.
Proof.
  induction cs as [|c cs IH]; intros rows Hcs; cbn [fold_left].
  - reflexivity.
  - rewrite IH by (intros c' Hc'; apply Hcs; right; exact Hc').
    apply insert_or_replace_other. apply Hcs. left.
Qed.

(** X18: caching candles and reading the price back.  When
    [save_ohlcv symbol] is given a batch whose timestamps fit a signed
    64-bit integer and whose last candle is at least as recent as every
    candle cached for the symbol and every other candle of the batch, it
    reports the size of the batch, [get_latest_price symbol] then returns
    the close of that last candle, the latest price of every other symbol
    is as before, and the ledger tables are untouched. *)
Theorem save_ohlcv_then_latest_price (symbol : string)
    (batch : list database.raw_candle) (ts : Z) (o h l c v : Q) (db : Db) :
  database.in_int64 ts = true ->
  (forall raw, raw ∈ batch ->
     database.in_int64 (fst (fst (fst (fst (fst raw))))) = true) ->
  (forall d, d ∈ ohlcv db -> c_symbol d = symbol -> (c_timestamp d <= ts)%Z) ->
  (forall raw, raw ∈ batch -> (fst (fst (fst (fst (fst raw)))) <= ts)%Z) ->
  exists db',
    database.save_ohlcv symbol (batch ++ [(ts, o, h, l, c, v)]) db
      = (Ok (S (length batch)), db')
    /\ database.get_latest_price symbol db' = (Ok (Some c), db')
    /\ (forall other, other <> symbol ->
          price_of other db' = price_of other db)
    /\ positions db' = positions db
    /\ account db' = account db
    /\ trades db' = trades db
    /\ equity_history db' = equity_history db.
Proof.
  intros Hts Hfit Hold Hbatch. unfold database.save_ohlcv.
  assert (Hall : forallb (fun d => database.in_int64 (c_timestamp d))
                   (List.map (database.to_candle symbol)
                      (batch ++ [(ts, o, h, l, c, v)])) = true).
  { apply forallb_forall. intros d Hd.
    apply in_map_iff in Hd as (raw & <- & Hraw).
    apply in_app_iff in Hraw as [Hraw|[<-|[]]].
    - apply list_elem_of_In in Hraw. specialize (Hfit raw Hraw).
      destruct raw as [[[[[t ?] ?] ?] ?] ?]. exact Hfit.
    - exact Hts. }
  rewrite Hall.
  eexists. split.
  { rewrite length_app. cbn [length]. rewrite Nat.add_1_r. reflexivity. }
  cbn [positions account trades equity_history].
  split; [|split; [|repeat split; reflexivity]].
  - rewrite get_latest_price_run. unfold price_of. cbn [ohlcv].
    rewrite map_app, fold_left_app. cbn [List.map fold_left].
    rewrite insert_or_replace_latest; [reflexivity|reflexivity|].
    intros d Hd Hds. cbn [database.to_candle c_timestamp].
    apply fold_insert_or_replace_elem in Hd as [Hd|Hd].
    + apply Hold; assumption.
    + apply list_elem_of_In, in_map_iff in Hd as (raw & <- & Hraw).
      apply list_elem_of_In in Hraw. specialize (Hbatch raw Hraw).
      destruct raw as [[[[[t ?] ?] ?] ?] ?]. exact Hbatch.
  - intros other Hne. unfold price_of. cbn [ohlcv].
    rewrite fold_insert_or_replace_other; [reflexivity|].
    intros c' Hc'.
    apply list_elem_of_In, in_map_iff in Hc' as (raw & <- & _).
    destruct raw as [[[[[t ?] ?] ?] ?] ?]. cbn. congruence.
Qed.

Lemma save_ohlcv_then_latest_price_witness :
  exists db',
    database.save_ohlcv btc
      [(2%Z, 1, 1, 1, 1, 1); (3%Z, 2, 2, 2, 51000, 1)] db_funded
      = (Ok 2%nat, db')
    /\ database.get_latest_price btc db' = (Ok (Some 51000), db').
Proof.
  destruct (save_ohlcv_then_latest_price btc [(2%Z, 1, 1, 1, 1, 1)] 3
              2 2 2 51000 1 db_funded)
    as (db' & Hsave & Hprice & _).
  - reflexivity.
  - intros raw Hraw. apply list_elem_of_singleton in Hraw. subst raw.
    reflexivity.
  - intros d Hd _. apply list_elem_of_singleton in Hd. subst d.
    vm_compute. discriminate.
  - intros raw Hraw. apply list_elem_of_singleton in Hraw. subst raw.
    vm_compute. discriminate.
  - exists db'. split; [exact Hsave|exact Hprice].
Defined.

(** ** Reading the trade log *)

Lemma newest_first_total : Total database.newest_first.
Proof. intros t1 t2. unfold database.newest_first. lia. Qed.

Lemma newest_first_trans : Transitive database.newest_first.
Proof. intros t1 t2 t3. unfold database.newest_first. lia. Qed.

Lemma sql_limit_prefix {A} limit (l : list A) :
  exists rest, l = database.sql_limit limit l ++ rest.
Proof.
  unfold database.sql_limit. destruct (limit <? 0)%Z.
  - exists []. rewrite app_nil_r. reflexivity.
  - exists (drop (Z.to_nat limit) l). rewrite take_drop. reflexivity.
Qed.

Lemma sql_limit_all {A} limit (l : list A) :
  (Z.of_nat (length l) <= limit)%Z -> database.sql_limit limit l = l.
Proof.
  intros H. unfold database.sql_limit. destruct (limit <? 0)%Z; [reflexivity|].
  apply take_ge. lia.
Qed.

Lemma insert_by_Permutation {A} (before : A -> A -> bool) (x : A) (l : list A) :
  database.insert_by before x l ≡ₚ x :: l.
Proof.
  induction l as [|y l IH]; cbn [database.insert_by].
  - reflexivity.
  - destruct (before x y); [reflexivity|].
    rewrite IH. apply perm_swap.
Qed.

Lemma order_by_Permutation {A} (before : A -> A -> bool) (l : list A) :
  database.order_by before l ≡ₚ l.
Proof.
  unfold database.order_by. induction l as [|x l IH]; cbn [foldr].
  - reflexivity.
  - rewrite insert_by_Permutation, IH. reflexivity.
Qed.

(** Rows with equal keys keep the order of the table. *)
Lemma order_by_ties {A} (before : A -> A -> bool) (l : list A) :
  (forall x y, x ∈ l -> y ∈ l -> before x y = true) ->
  database.order_by before l = l.
Proof.
  unfold database.order_by. induction l as [|x l IH]; intros Hties;
    cbn [foldr]; [reflexivity|].
  rewrite IH by (intros y z Hy Hz; apply Hties; right; assumption).
  destruct l as [|y l]; cbn [database.insert_by]; [reflexivity|].
  rewrite Hties; [reflexivity|left|right; left].
Qed.

Lemma insert_by_sorted {A} (R : relation A) `{!forall x y, Decision (R x y)}
    (x : A) (l : list A) :
  Transitive R -> Total R ->
  StronglySorted R l ->
  StronglySorted R
    (database.insert_by (fun a b => bool_decide (R a b)) x l).
Proof.
  intros Htrans Htotal. induction 1 as [|y l Hsorted IH Hy];
    cbn [database.insert_by].
  - repeat constructor.
  - destruct (bool_decide (R x y)) eqn:E.
    + apply bool_decide_eq_true in E.
      constructor; [constructor; assumption|].
      constructor; [exact E|].
      eapply Forall_impl; [exact Hy|]. intros z Hz. etransitivity; eassumption.
    + apply bool_decide_eq_false in E.
      assert (Hyx : R y x) by (destruct (Htotal x y); [contradiction|assumption]).
      constructor; [exact IH|].
      rewrite insert_by_Permutation. constructor; assumption.
Qed.

Lemma order_by_sorted {A} (R : relation A) `{!forall x y, Decision (R x y)}
    (l : list A) :
  Transitive R -> Total R ->
  StronglySorted R (database.order_by (fun a b => bool_decide (R a b)) l).
Proof.
  intros Htrans Htotal. unfold database.order_by.
  induction l as [|x l IH]; cbn [foldr].
  - constructor.
  - apply insert_by_sorted; assumption.
Qed.

(** X19: [get_trades] with a [limit] that fits a signed 64-bit integer
    returns rows of the trade log, newest first, at most [limit] of them
    when [limit] is not negative; with a non-empty symbol every row is of
    that symbol; and when the log holds no more than [limit] rows and no
    symbol is asked for, every row of the log is returned.  A [limit]
    that does not fit raises [OverflowError]. *)
Theorem get_trades_newest_first (symbol : option string) (limit : Z)
    (db : Db) :
  (database.in_int64 limit = false ->
   database.get_trades symbol limit db = (Raise OverflowError, db))
  /\ (database.in_int64 limit = true ->
      exists rows,
        database.get_trades symbol limit db = (Ok rows, db)
        /\ StronglySorted database.newest_first rows
        /\ ((0 <= limit)%Z -> (Z.of_nat (length rows) <= limit)%Z)
        /\ (forall t, t ∈ rows ->
              t ∈ trades db
              /\ (forall s, symbol = Some s -> s <> EmptyString ->
                    t_symbol t = s))
        /\ (symbol = None -> (Z.of_nat (length (trades db)) <= limit)%Z ->
            rows ≡ₚ trades db)).
Proof.
  unfold database.get_trades. split; intros Hfit; rewrite Hfit;
    [reflexivity|].
  unfold gets. eexists. split; [reflexivity|].
  set (selected := match symbol with
                   | Some s => if String.eqb s EmptyString then trades db
                               else List.filter _ (trades db)
                   | None => trades db
                   end).
  set (before := fun t1 t2 => bool_decide (database.newest_first t1 t2)).
  assert (Hsel : forall t, t ∈ selected ->
            t ∈ trades db
            /\ (forall s, symbol = Some s -> s <> EmptyString -> t_symbol t = s)).
  { intros t Ht. unfold selected in Ht. destruct symbol as [s|].
    - destruct (String.eqb s EmptyString) eqn:Es.
      + apply String.eqb_eq in Es. split; [exact Ht|].
        intros s' [= <-] Hne. contradiction.
      + apply list_elem_of_In, filter_In in Ht as [Ht Hs].
        apply list_elem_of_In in Ht. split; [exact Ht|].
        intros s' [= <-] _. apply String.eqb_eq. exact Hs.
    - split; [exact Ht|]. intros s' Hs'. discriminate. }
  pose proof (order_by_sorted database.newest_first selected
                newest_first_trans newest_first_total) as Hsorted.
  fold before in Hsorted.
  destruct (sql_limit_prefix limit (database.order_by before selected))
    as [rest Hrest].
  split; [|split; [|split]].
  - rewrite Hrest in Hsorted.
    apply StronglySorted_app_1_l in Hsorted. exact Hsorted.
  - intros Hlim. unfold database.sql_limit.
    replace (limit <? 0)%Z with false by (symmetry; apply Z.ltb_ge; lia).
    rewrite length_take. lia.
  - intros t Ht. apply Hsel.
    rewrite <- (order_by_Permutation before selected).
    rewrite Hrest. apply elem_of_app. left. exact Ht.
  - intros -> Hlen. unfold selected.
    rewrite sql_limit_all.
    + apply order_by_Permutation.
    + rewrite (Permutation_length (order_by_Permutation before (trades db))).
      exact Hlen.
Qed.

(** * Further properties of the strategy *)

Lemma is_Some_bool {A} (o : option A) :
  bool_decide (is_Some o) = true <-> o <> None.
Proof.
  rewrite bool_decide_eq_true. split.
  - intros [x ->]. discriminate.
  - destruct o; [eauto|congruence].
Qed.

Lemma is_Some_bool_false {A} (o : option A) :
  bool_decide (is_Some o) = false <-> o = None.
Proof.
  rewrite bool_decide_eq_false. split.
  - destruct o; [|reflexivity]. intros H. exfalso. apply H. eauto.
  - intros -> [x H]. discriminate.
Qed.

Lemma last_is_iff self c :
  rsi_ema_strategy.last_is self c = true <-> _last_crossover self = Some c.
Proof.
  unfold rsi_ema_strategy.last_is.
  destruct (_last_crossover self) as [[|]|], c; split; congruence.
Qed.

(** ** The decision table *)

(** X21: past its guards (three rows, the four columns, the latest rsi,
    ema_fast and ema_slow present) [analyze] decides as follows, [memory]
    being [_last_crossover] as this call leaves it.  BUY exactly when no
    position is held, rsi is below the oversold threshold, and the fast
    average is above the slow one or the memory is bullish; the
    confidence is then min(100, (oversold - rsi) * 3 + 50).  SELL exactly
    when a position is held and either rsi is above the overbought
    threshold with the fast average not above the slow one or the memory
    bearish, or this call saw a bearish crossover with rsi above 50.
    HOLD otherwise, with confidence 50. *)
Theorem analyze_decision_table (self : RsiEmaStrategy) (df : DataFrame)
    (position : option Position) (rsi curr_fast curr_slow : Q) :
  (3 <= len df)%nat ->
  (forall col, col ∈ rsi_ema_strategy.required -> col ∈ columns df) ->
  getitem (iloc_neg df 1) "rsi" = Num rsi ->
  getitem (iloc_neg df 1) "ema_fast" = Num curr_fast ->
  getitem (iloc_neg df 1) "ema_slow" = Num curr_slow ->
  let result := fst (rsi_ema_strategy.analyze self df position) in
  let memory := _last_crossover (snd (rsi_ema_strategy.analyze self df position)) in
  let crossed_down :=
    rsi_ema_strategy.bearish_crossover
      (cell_gt (getitem (iloc_neg df 2) "ema_fast")
               (getitem (iloc_neg df 2) "ema_slow"))
      (Qltb curr_slow curr_fast) = true in
  let buy_case :=
    position = None /\ rsi < rsi_oversold self
    /\ (curr_slow < curr_fast \/ memory = Some bullish) in
  let sell_case :=
    position <> None
    /\ ((rsi_overbought self < rsi
         /\ (curr_fast <= curr_slow \/ memory = Some bearish))
        \/ (crossed_down /\ 50 < rsi)) in
  (signal result = BUY <-> buy_case)
  /\ (signal result = BUY ->
      confidence result = Qmin 100 ((rsi_oversold self - rsi) * 3 + 50))
  /\ (signal result = SELL <-> ~ buy_case /\ sell_case)
  /\ (signal result = HOLD <-> ~ buy_case /\ ~ sell_case)
  /\ (signal result = HOLD -> confidence result = 50).
Proof.
  intros Hlen Hcols Hrsi Hfast Hslow.
  apply missing_columns_nil in Hcols.
  unfold rsi_ema_strategy.analyze.
  assert (E : (len df <? 3)%nat = false) by (apply Nat.ltb_ge; exact Hlen).
  rewrite E, Hcols, Hrsi, Hfast, Hslow. cbv zeta.
  set (after := if rsi_ema_strategy.bullish_crossover _ _ then _ else _).
  assert (Hos : rsi_oversold after = rsi_oversold self).
  { unfold after.
    destruct (rsi_ema_strategy.bullish_crossover _ _);
      [|destruct (rsi_ema_strategy.bearish_crossover _ _)]; reflexivity. }
  assert (Hob : rsi_overbought after = rsi_overbought self).
  { unfold after.
    destruct (rsi_ema_strategy.bullish_crossover _ _);
      [|destruct (rsi_ema_strategy.bearish_crossover _ _)]; reflexivity. }
  rewrite Hos, Hob.
  set (crossed := rsi_ema_strategy.bearish_crossover _ _).
  assert (Hbuy : Qltb rsi (rsi_oversold self)
                 && (Qltb curr_slow curr_fast
                     || rsi_ema_strategy.last_is after bullish)
                 && negb (bool_decide (is_Some position)) = true
                 <-> position = None /\ rsi < rsi_oversold self
                     /\ (curr_slow < curr_fast
                         \/ _last_crossover after = Some bullish)).
  { rewrite !andb_true_iff, orb_true_iff, negb_true_iff, is_Some_bool_false,
      !Qltb_lt, last_is_iff. tauto. }
  assert (Hsell : Qltb (rsi_overbought self) rsi
                  && (negb (Qltb curr_slow curr_fast)
                      || rsi_ema_strategy.last_is after bearish)
                  && bool_decide (is_Some position) = true
                  <-> position <> None /\ rsi_overbought self < rsi
                      /\ (curr_fast <= curr_slow
                          \/ _last_crossover after = Some bearish)).
  { rewrite !andb_true_iff, orb_true_iff, negb_true_iff, is_Some_bool,
      Qltb_lt, Qltb_ge, last_is_iff. tauto. }
  assert (Hrisk : bool_decide (is_Some position) && crossed && Qltb 50 rsi = true
                  <-> position <> None /\ crossed = true /\ 50 < rsi).
  { rewrite !andb_true_iff, is_Some_bool, Qltb_lt. tauto. }
  destruct (Qltb rsi (rsi_oversold self) && _ && _) eqn:Eb.
  { cbn [fst snd signal confidence].
    pose proof (proj1 Hbuy eq_refl) as Hb.
    repeat split; try tauto; try discriminate; try (intros; tauto). }
  assert (Hnb : ~ (position = None /\ rsi < rsi_oversold self
                   /\ (curr_slow < curr_fast
                       \/ _last_crossover after = Some bullish))).
  { intros H. apply Hbuy in H. discriminate. }
  destruct (Qltb (rsi_overbought self) rsi && _ && _) eqn:Es.
  { cbn [fst snd signal confidence].
    pose proof (proj1 Hsell eq_refl) as Hs.
    repeat split; try tauto; try discriminate; try (intros; tauto). }
  assert (Hns : ~ (position <> None /\ rsi_overbought self < rsi
                   /\ (curr_fast <= curr_slow
                       \/ _last_crossover after = Some bearish))).
  { intros H. apply Hsell in H. discriminate. }
  destruct (bool_decide (is_Some position) && crossed && Qltb 50 rsi) eqn:Er.
  { cbn [fst snd signal confidence].
    pose proof (proj1 Hrisk eq_refl) as Hr.
    repeat split; try tauto; try discriminate; try (intros; tauto). }
  assert (Hnr : ~ (position <> None /\ crossed = true /\ 50 < rsi)).
  { intros H. apply Hrisk in H. discriminate. }
  cbn [fst snd signal confidence].
  repeat split; try tauto; try discriminate; try (intros; tauto).
Qed.

Lemma analyze_decision_table_witness :
  signal (fst (rsi_ema_strategy.analyze stock_strategy df_bullish_cross None))
  = BUY.
Proof.
  pose proof (analyze_decision_table stock_strategy df_bullish_cross None 20 3 2)
    as H.
  cbv zeta in H. apply H.
  - vm_compute. lia.
  - intros col Hcol. exact Hcol.
  - vm_compute. reflexivity.
  - vm_compute. reflexivity.
  - vm_compute. reflexivity.
  - split; [reflexivity|]. split; [reflexivity|]. left. reflexivity.
Defined.

(** The signal and the position: BUY only when flat, SELL only when
    holding. *)
Lemma analyze_respects_signal_position self df position :
  (signal (fst (rsi_ema_strategy.analyze self df position)) = BUY ->
   position = None)
  /\ (signal (fst (rsi_ema_strategy.analyze self df position)) = SELL ->
      position <> None).
Proof.
  unfold rsi_ema_strategy.analyze.
  destruct (len df <? 3)%nat; [split; discriminate|].
  destruct (rsi_ema_strategy.missing_columns df); [|split; discriminate].
  destruct (getitem (iloc_neg df 1) "rsi"); [|split; discriminate].
  destruct (getitem (iloc_neg df 1) "ema_fast"); [|split; discriminate].
  destruct (getitem (iloc_neg df 1) "ema_slow"); [|split; discriminate].
  cbv zeta.
  destruct (_ && _ && negb (bool_decide (is_Some position))) eqn:Ebuy.
  { cbn [fst signal]. apply andb_true_iff in Ebuy as [_ Hflat].
    apply negb_true_iff, is_Some_bool_false in Hflat.
    split; [intros _; exact Hflat|discriminate]. }
  destruct (_ && _ && bool_decide (is_Some position)) eqn:Esell.
  { cbn [fst signal]. apply andb_true_iff in Esell as [_ Hheld].
    apply is_Some_bool in Hheld.
    split; [discriminate|intros _; exact Hheld]. }
  destruct (bool_decide (is_Some position) && _ && _) eqn:Erisk.
  { cbn [fst signal]. apply andb_true_iff in Erisk as [Erisk _].
    apply andb_true_iff in Erisk as [Hheld _]. apply is_Some_bool in Hheld.
    split; [discriminate|intros _; exact Hheld]. }
  cbn [fst signal]. split; discriminate.
Qed.

(** X22: on every frame and whatever is held, [analyze] never signals BUY
    while a position is held and never SELL while none is; it leaves both
    RSI thresholds as they were; and its confidence is 0 or lies between
    50 and 100. *)
Theorem analyze_respects_position (self : RsiEmaStrategy) (df : DataFrame)
    (position : option Position) :
  let result := fst (rsi_ema_strategy.analyze self df position) in
  let after := snd (rsi_ema_strategy.analyze self df position) in
  (signal result = BUY -> position = None)
  /\ (signal result = SELL -> position <> None)
  /\ rsi_oversold after = rsi_oversold self
  /\ rsi_overbought after = rsi_overbought self
  /\ (confidence result = 0 \/ 50 <= confidence result <= 100).
Proof.
  cbv zeta. unfold rsi_ema_strategy.analyze.
  destruct (len df <? 3)%nat.
  { cbn [fst snd signal confidence].
    split; [discriminate|]. split; [discriminate|].
    split; [reflexivity|]. split; [reflexivity|]. left. reflexivity. }
  destruct (rsi_ema_strategy.missing_columns df).
  2:{ cbn [fst snd signal confidence].
    split; [discriminate|]. split; [discriminate|].
    split; [reflexivity|]. split; [reflexivity|]. left. reflexivity. }
  destruct (getitem (iloc_neg df 1) "rsi") as [rsi|].
  2:{ cbn [fst snd signal confidence].
    split; [discriminate|]. split; [discriminate|].
    split; [reflexivity|]. split; [reflexivity|]. left. reflexivity. }
  destruct (getitem (iloc_neg df 1) "ema_fast") as [ema_fast|].
  2:{ cbn [fst snd signal confidence].
    split; [discriminate|]. split; [discriminate|].
    split; [reflexivity|]. split; [reflexivity|]. left. reflexivity. }
  destruct (getitem (iloc_neg df 1) "ema_slow") as [ema_slow|].
  2:{ cbn [fst snd signal confidence].
    split; [discriminate|]. split; [discriminate|].
    split; [reflexivity|]. split; [reflexivity|]. left. reflexivity. }
  set (after := if rsi_ema_strategy.bullish_crossover _ _ then _ else _).
  assert (Hos : rsi_oversold after = rsi_oversold self).
  { unfold after.
    destruct (rsi_ema_strategy.bullish_crossover _ _);
      [|destruct (rsi_ema_strategy.bearish_crossover _ _)]; reflexivity. }
  assert (Hob : rsi_overbought after = rsi_overbought self).
  { unfold after.
    destruct (rsi_ema_strategy.bullish_crossover _ _);
      [|destruct (rsi_ema_strategy.bearish_crossover _ _)]; reflexivity. }
  assert (Hcap : forall gap, 0 < gap ->
            50 <= Qmin 100 (gap * 3 + 50) <= 100).
  { intros gap Hgap. split; [apply confidence_floor; exact Hgap|].
    apply Q.le_min_l. }
  destruct (Qltb rsi (rsi_oversold after) && _ && _) eqn:Ebuy.
  { cbn [fst snd signal confidence].
    apply andb_true_iff in Ebuy as [Ebuy Hflat].
    apply andb_true_iff in Ebuy as [Ebuy _].
    apply Qltb_lt in Ebuy.
    apply negb_true_iff, is_Some_bool_false in Hflat.
    split; [intros _; exact Hflat|]. split; [discriminate|].
    split; [exact Hos|]. split; [exact Hob|].
    right. apply Hcap. lra. }
  destruct (Qltb (rsi_overbought after) rsi && _ && _) eqn:Esell.
  { cbn [fst snd signal confidence].
    apply andb_true_iff in Esell as [Esell Hheld].
    apply andb_true_iff in Esell as [Esell _].
    apply Qltb_lt in Esell. apply is_Some_bool in Hheld.
    split; [discriminate|]. split; [intros _; exact Hheld|].
    split; [exact Hos|]. split; [exact Hob|].
    right. apply Hcap. lra. }
  destruct (bool_decide (is_Some position) && _ && Qltb 50 rsi) eqn:Erisk.
  { cbn [fst snd signal confidence].
    apply andb_true_iff in Erisk as [Erisk _].
    apply andb_true_iff in Erisk as [Hheld _].
    apply is_Some_bool in Hheld.
    split; [discriminate|]. split; [intros _; exact Hheld|].
    split; [exact Hos|]. split; [exact Hob|].
    right. split; discriminate. }
  cbn [fst snd signal confidence].
  split; [discriminate|]. split; [discriminate|].
  split; [exact Hos|]. split; [exact Hob|].
  right. split; discriminate.
Qed.

(** X23: the further the RSI is below the oversold threshold, the more
    confident the BUY: of two BUY answers of one strategy, the one for the
    lower rsi has a confidence at least as high. *)
Theorem buy_confidence_grows_as_rsi_falls (self : RsiEmaStrategy)
    (df1 df2 : DataFrame) (rsi1 rsi2 f1 s1 f2 s2 : Q) :
  (3 <= len df1)%nat -> (3 <= len df2)%nat ->
  (forall col, col ∈ rsi_ema_strategy.required ->
     col ∈ columns df1 /\ col ∈ columns df2) ->
  getitem (iloc_neg df1 1) "rsi" = Num rsi1 ->
  getitem (iloc_neg df1 1) "ema_fast" = Num f1 ->
  getitem (iloc_neg df1 1) "ema_slow" = Num s1 ->
  getitem (iloc_neg df2 1) "rsi" = Num rsi2 ->
  getitem (iloc_neg df2 1) "ema_fast" = Num f2 ->
  getitem (iloc_neg df2 1) "ema_slow" = Num s2 ->
  let r1 := fst (rsi_ema_strategy.analyze self df1 None) in
  let r2 := fst (rsi_ema_strategy.analyze self df2 None) in
  signal r1 = BUY -> signal r2 = BUY ->
  rsi1 <= rsi2 ->
  confidence r2 <= confidence r1.
Proof.
  intros Hlen1 Hlen2 Hcols Hrsi1 Hf1 Hs1 Hrsi2 Hf2 Hs2 r1 r2 Hb1 Hb2 Hlt.
  assert (Hform : forall df rsi f s,
            (3 <= len df)%nat ->
            rsi_ema_strategy.missing_columns df = [] ->
            getitem (iloc_neg df 1) "rsi" = Num rsi ->
            getitem (iloc_neg df 1) "ema_fast" = Num f ->
            getitem (iloc_neg df 1) "ema_slow" = Num s ->
            signal (fst (rsi_ema_strategy.analyze self df None)) = BUY ->
            confidence (fst (rsi_ema_strategy.analyze self df None))
            = Qmin 100 ((rsi_oversold self - rsi) * 3 + 50)).
  { intros df rsi f s Hlen Hmiss Hrsi Hf Hs.
    unfold rsi_ema_strategy.analyze.
    assert (E : (len df <? 3)%nat = false) by (apply Nat.ltb_ge; exact Hlen).
    rewrite E, Hmiss, Hrsi, Hf, Hs. cbv zeta.
    set (after := if rsi_ema_strategy.bullish_crossover _ _ then _ else _).
    assert (Hos : rsi_oversold after = rsi_oversold self).
    { unfold after.
      destruct (rsi_ema_strategy.bullish_crossover _ _);
        [|destruct (rsi_ema_strategy.bearish_crossover _ _)]; reflexivity. }
    rewrite Hos.
    destruct (Qltb rsi (rsi_oversold self) && _ && _);
      [intros _; reflexivity|].
    destruct (_ && _ && _); [discriminate|].
    destruct (_ && _ && _); discriminate. }
  assert (Hm1 : rsi_ema_strategy.missing_columns df1 = []).
  { apply missing_columns_nil. intros col Hcol. apply (Hcols col Hcol). }
  assert (Hm2 : rsi_ema_strategy.missing_columns df2 = []).
  { apply missing_columns_nil. intros col Hcol. apply (Hcols col Hcol). }
  unfold r1, r2 in *.
  rewrite (Hform df1 rsi1 f1 s1 Hlen1 Hm1 Hrsi1 Hf1 Hs1 Hb1).
  rewrite (Hform df2 rsi2 f2 s2 Hlen2 Hm2 Hrsi2 Hf2 Hs2 Hb2).
  set (x1 := (rsi_oversold self - rsi1) * 3 + 50).
  set (x2 := (rsi_oversold self - rsi2) * 3 + 50).
  assert (Hx : x2 <= x1) by (unfold x1, x2; lra).
  apply Q.min_le_compat_l. exact Hx.
Qed.

Lemma buy_confidence_grows_as_rsi_falls_witness :
  confidence (fst (rsi_ema_strategy.analyze stock_strategy df_bullish_cross_mild None))
  <= confidence (fst (rsi_ema_strategy.analyze stock_strategy df_bullish_cross None)).
Proof.
  refine (buy_confidence_grows_as_rsi_falls stock_strategy
            df_bullish_cross df_bullish_cross_mild 20 25 3 2 3 2
            _ _ _ _ _ _ _ _ _ _ _ _).
  - vm_compute. lia.
  - vm_compute. lia.
  - intros col Hcol. split; exact Hcol.
  - vm_compute. reflexivity.
  - vm_compute. reflexivity.
  - vm_compute. reflexivity.
  - vm_compute. reflexivity.
  - vm_compute. reflexivity.
  - vm_compute. reflexivity.
  - vm_compute. reflexivity.
  - vm_compute. reflexivity.
  - vm_compute. discriminate.
Defined.

(** ** The crossover helper and the strategy *)

(** X24: [detect_ema_crossover] and the crossover memory of [analyze]
    agree away from ties.  On a frame that passes the guards of [analyze]
    and whose latest two rows carry EMA values with the fast and the slow
    average different in each row, the memory after [analyze] is the
    crossover the helper reports, or the old memory when it reports
    none. *)
Theorem detect_agrees_off_ties (self : RsiEmaStrategy) (df : DataFrame)
    (position : option Position) (rsi curr_fast curr_slow prev_fast prev_slow : Q) :
  (3 <= len df)%nat ->
  (forall col, col ∈ rsi_ema_strategy.required -> col ∈ columns df) ->
  getitem (iloc_neg df 1) "rsi" = Num rsi ->
  getitem (iloc_neg df 1) "ema_fast" = Num curr_fast ->
  getitem (iloc_neg df 1) "ema_slow" = Num curr_slow ->
  getitem (iloc_neg df 2) "ema_fast" = Num prev_fast ->
  getitem (iloc_neg df 2) "ema_slow" = Num prev_slow ->
  ~ prev_fast == prev_slow ->
  ~ curr_fast == curr_slow ->
  _last_crossover (snd (rsi_ema_strategy.analyze self df position))
  = match indicators_py.detect_ema_crossover df with
    | Some c => Some c
    | None => _last_crossover self
    end.
Proof.
  intros Hlen Hcols Hrsi Hcf Hcs Hpf Hps Hprev Hcurr.
  pose proof (Hcols "ema_fast" ltac:(set_solver)) as Hfast_col.
  pose proof (Hcols "ema_slow" ltac:(set_solver)) as Hslow_col.
  apply missing_columns_nil in Hcols.
  rewrite (analyze_memory self df position rsi curr_fast curr_slow
             Hlen Hcols Hrsi Hcf Hcs).
  unfold indicators_py.detect_ema_crossover.
  replace (len df <? 2)%nat with false by (symmetry; apply Nat.ltb_ge; lia).
  rewrite (bool_decide_eq_true_2 _ Hfast_col), (bool_decide_eq_true_2 _ Hslow_col).
  cbn [negb orb]. rewrite Hcf, Hcs, Hpf, Hps.
  unfold rsi_ema_strategy.bullish_crossover, rsi_ema_strategy.bearish_crossover.
  cbn [cell_gt].
  assert (Hp : Qle_bool prev_fast prev_slow = negb (Qltb prev_slow prev_fast))
    by (unfold Qltb; rewrite negb_involutive; reflexivity).
  assert (Hp' : Qle_bool prev_slow prev_fast = Qltb prev_slow prev_fast).
  { destruct (Qltb prev_slow prev_fast) eqn:E.
    - apply Qltb_lt in E. apply Qle_bool_iff. lra.
    - apply Qltb_ge in E. apply Qle_bool_gt.
      destruct (Qlt_le_dec prev_fast prev_slow) as [H|H]; [exact H|].
      exfalso. apply Hprev. apply Qle_antisym; assumption. }
  assert (Hc : Qltb curr_fast curr_slow = negb (Qltb curr_slow curr_fast)).
  { destruct (Qltb curr_slow curr_fast) eqn:E; cbn [negb].
    - apply Qltb_lt in E. apply Qltb_ge. lra.
    - apply Qltb_ge in E. apply Qltb_lt.
      destruct (Qlt_le_dec curr_fast curr_slow) as [H|H]; [exact H|].
      exfalso. apply Hcurr. apply Qle_antisym; assumption. }
  rewrite Hp, Hp', Hc.
  destruct (Qltb prev_slow prev_fast), (Qltb curr_slow curr_fast); reflexivity.
Qed.

Lemma detect_agrees_off_ties_witness :
  _last_crossover
    (snd (rsi_ema_strategy.analyze stock_strategy df_bullish_cross None))
  = indicators_py.detect_ema_crossover df_bullish_cross.
Proof.
  rewrite (detect_agrees_off_ties stock_strategy df_bullish_cross None 20 3 2 1 2).
  - vm_compute. reflexivity.
  - vm_compute. lia.
  - intros col Hcol. exact Hcol.
  - vm_compute. reflexivity.
  - vm_compute. reflexivity.
  - vm_compute. reflexivity.
  - vm_compute. reflexivity.
  - vm_compute. reflexivity.
  - intros H. discriminate H.
  - intros H. discriminate H.
Defined.

(** ** Acting on a signal *)

(** X25: what [execute_signal] does with a signal.  HOLD, a BUY while the
    symbol is held and a SELL while it is not leave the store as it is and
    report no trade.  And a signal that [analyze] computes for the position
    the store holds is never dropped: its BUY is passed to [market_buy]
    with the bot's trade amount and its SELL to [sell_all], the result of
    which is what [execute_signal] returns. *)
Theorem execute_signal_acts (self : PaperTradingBot) (now : Z)
    (df : DataFrame) (db : Db) :
  let held := positions db !! bot_symbol self in
  let advice :=
    signal (fst (rsi_ema_strategy.analyze (bot_strategy self) df held)) in
  main_py.execute_signal self now HOLD db = (Ok None, db)
  /\ (held <> None -> main_py.execute_signal self now BUY db = (Ok None, db))
  /\ (held = None -> main_py.execute_signal self now SELL db = (Ok None, db))
  /\ (advice = BUY ->
      main_py.execute_signal self now advice db
      = (executor.market_buy (bot_executor self) now (bot_symbol self)
           (trade_amount self) ≫= fun r => mret (Some r)) db)
  /\ (advice = SELL ->
      main_py.execute_signal self now advice db
      = (executor.sell_all (bot_executor self) now (bot_symbol self)
           ≫= fun r => mret (Some r)) db).
Proof.
  intros held advice.
  pose proof (analyze_respects_signal_position (bot_strategy self) df held)
    as [Hbuy Hsell].
  fold advice in Hbuy, Hsell.
  unfold main_py.execute_signal.
  split; [reflexivity|]. split; [|split; [|split]].
  - intros Hheld.
    erewrite bind_ok by apply get_position_run. fold held.
    destruct held; [reflexivity|congruence].
  - intros Hflat.
    erewrite bind_ok by apply get_position_run. fold held.
    rewrite Hflat. reflexivity.
  - intros Hadvice. rewrite Hadvice.
    erewrite bind_ok by apply get_position_run. fold held.
    rewrite (Hbuy Hadvice). reflexivity.
  - intros Hadvice. rewrite Hadvice.
    erewrite bind_ok by apply get_position_run. fold held.
    destruct held; [reflexivity|]. exfalso. exact (Hsell Hadvice eq_refl).
Qed.

(** * Properties of the analytics *)

(** ** Maximum drawdown *)

Lemma drawdown_step_sign st e :
  0 <= snd (fst st) -> 0 <= snd st ->
  0 <= snd (fst (analytics_py.drawdown_step st e))
  /\ 0 <= snd (analytics_py.drawdown_step st e).
Proof.
  destruct st as [[peak md] mda]. cbn [fst snd]. intros Hmd Hmda.
  unfold analytics_py.drawdown_step.
  destruct (Qltb md _) eqn:E; cbn [fst snd]; [|split; assumption].
  apply Qltb_lt in E. split; [lra|].
  destruct (Qltb peak e) eqn:Ep; [lra|].
  apply Qltb_ge in Ep. lra.
Qed.

Lemma drawdown_step_cap st e :
  0 <= e -> snd (fst st) <= 100 ->
  snd (fst (analytics_py.drawdown_step st e)) <= 100.
Proof.
  destruct st as [[peak md] mda]. cbn [fst snd]. intros He Hmd.
  unfold analytics_py.drawdown_step.
  destruct (Qltb md _) eqn:E; cbn [fst snd]; [|exact Hmd].
  clear E. set (peak' := if Qltb peak e then e else peak).
  destruct (Qltb 0 peak') eqn:Ep; [|discriminate].
  apply Qltb_lt in Ep.
  assert (H : (peak' - e) / peak' <= 1).
  { apply Qle_shift_div_r; [exact Ep|]. lra. }
  lra.
Qed.

Lemma drawdown_fold_sign l : forall st,
  0 <= snd (fst st) -> 0 <= snd st ->
  0 <= snd (fst (fold_left analytics_py.drawdown_step l st))
  /\ 0 <= snd (fold_left analytics_py.drawdown_step l st).
Proof.
  induction l as [|e l IH]; intros st Hmd Hmda; cbn [fold_left].
  - split; assumption.
  - destruct (drawdown_step_sign st e Hmd Hmda). apply IH; assumption.
Qed.

Lemma drawdown_fold_cap l : forall st,
  (forall e, e ∈ l -> 0 <= e) -> snd (fst st) <= 100 ->
  snd (fst (fold_left analytics_py.drawdown_step l st)) <= 100.
Proof.
  induction l as [|e l IH]; intros st Hpos Hmd; cbn [fold_left].
  - exact Hmd.
  - apply IH.
    + intros e' He'. apply Hpos. right. exact He'.
    + apply drawdown_step_cap; [apply Hpos; left|exact Hmd].
Qed.

Lemma drawdown_fold_rising l : forall peak,
  StronglySorted Qle l ->
  (forall e, e ∈ l -> peak <= e) ->
  exists peak', fold_left analytics_py.drawdown_step l (peak, 0, 0)
                = (peak', 0, 0).
Proof.
  induction l as [|e l IH]; intros peak Hsorted Hpeak; cbn [fold_left].
  - eauto.
  - apply StronglySorted_inv in Hsorted as [Hsorted Hhead].
    assert (Hpe : peak <= e) by (apply Hpeak; left).
    set (peak' := if Qltb peak e then e else peak).
    assert (Heq : peak' == e).
    { unfold peak'. destruct (Qltb peak e) eqn:E; [reflexivity|].
      apply Qltb_ge in E. apply Qle_antisym; assumption. }
    assert (Hstep : analytics_py.drawdown_step (peak, 0, 0) e = (peak', 0, 0)).
    { unfold analytics_py.drawdown_step. fold peak'.
      replace (Qltb 0 (if Qltb 0 peak' then (peak' - e) / peak' * 100 else 0))
        with false; [reflexivity|].
      symmetry. apply Qltb_ge.
      destruct (Qltb 0 peak'); [|apply Qle_refl].
      assert (peak' - e == 0) as -> by lra.
      unfold Qdiv. rewrite !Qmult_0_l. apply Qle_refl. }
    rewrite Hstep. apply IH; [exact Hsorted|].
    intros e' He'. rewrite Heq.
    rewrite Forall_forall in Hhead. apply Hhead. exact He'.
Qed.

Lemma get_max_drawdown_run self db :
  analytics_py.get_max_drawdown self db
  = (Ok (if (length (equity_curve db) <? 2)%nat then (0, 0)
         else match equity_curve db with
              | [] => (0, 0)
              | first :: _ =>
                  let st := fold_left analytics_py.drawdown_step
                              (equity_curve db) (first, 0, 0) in
                  (snd (fst st), snd st)
              end), db).
Proof.
  unfold analytics_py.get_max_drawdown.
  erewrite bind_ok by (unfold database.get_equity_history, gets; reflexivity).
  unfold equity_curve. rewrite length_map.
  destruct (_ <? 2)%nat; [reflexivity|].
  destruct (List.map snd _) as [|first rest]; [reflexivity|].
  destruct (fold_left _ _ _) as [[peak md] mda]. reflexivity.
Qed.

(** X26: [get_max_drawdown] always returns and reads only; both figures
    are non-negative; the percentage is at most 100 when no snapshot is
    negative; and both are 0 when there are fewer than two snapshots or
    when the equity never falls along the history as [get_equity_history]
    returns it: by timestamp, the snapshots of one timestamp in the order
    they were recorded. *)
Theorem max_drawdown_bounds (self : PerformanceAnalytics) (db : Db) :
  exists pct abs_,
    analytics_py.get_max_drawdown self db = (Ok (pct, abs_), db)
    /\ 0 <= pct
    /\ 0 <= abs_
    /\ ((forall e, e ∈ equity_history db -> 0 <= snd e) -> pct <= 100)
    /\ ((length (equity_history db) < 2)%nat -> pct = 0 /\ abs_ = 0)
    /\ (StronglySorted Qle (equity_curve db) -> pct = 0 /\ abs_ = 0).
Proof.
  rewrite get_max_drawdown_run.
  assert (Hlen : length (equity_curve db) = length (equity_history db)).
  { unfold equity_curve. rewrite length_map.
    apply Permutation_length, order_by_Permutation. }
  assert (Hmem : forall x, x ∈ equity_curve db ->
                   exists e, e ∈ equity_history db /\ snd e = x).
  { intros x Hx. unfold equity_curve in Hx.
    apply list_elem_of_In, in_map_iff in Hx as (e & <- & He).
    apply list_elem_of_In in He.
    rewrite order_by_Permutation in He. eauto. }
  destruct (length (equity_curve db) <? 2)%nat eqn:E.
  { eexists. eexists. split; [reflexivity|].
    repeat split; try apply Qle_refl; try discriminate. }
  apply Nat.ltb_ge in E.
  destruct (equity_curve db) as [|first rest] eqn:Ecurve.
  { cbn in E. lia. }
  eexists. eexists. split; [reflexivity|].
  destruct (drawdown_fold_sign (first :: rest) (first, 0, 0))
    as [Hmd Hmda]; [apply Qle_refl|apply Qle_refl|].
  split; [exact Hmd|]. split; [exact Hmda|]. split; [|split].
  - intros Hpos. apply drawdown_fold_cap; [|discriminate].
    intros x Hx. destruct (Hmem x Hx) as (e & He & <-). apply Hpos. exact He.
  - intros Hshort. rewrite <- Hlen in Hshort. lia.
  - intros Hsorted.
    destruct (drawdown_fold_rising (first :: rest) first Hsorted) as [peak' ->].
    + intros x Hx. apply StronglySorted_inv in Hsorted as [_ Hhead].
      apply elem_of_cons in Hx as [->|Hx]; [apply Qle_refl|].
      rewrite Forall_forall in Hhead. apply Hhead. exact Hx.
    + split; reflexivity.
Qed.

(** ** Win rate and total return *)

Lemma filter_length_le {A} (f : A -> bool) (l : list A) :
  (length (List.filter f l) <= length l)%nat.
Proof.
  induction l as [|x l IH]; cbn [List.filter length]; [lia|].
  destruct (f x); cbn [length]; lia.
Qed.

(** X27: [get_win_rate] always returns and reads only: the winning sells
    are never more than the sells counted, the rate is their ratio times
    100 and lies between 0 and 100, and it is (0, 0, 0) when no sell was
    logged.  While the log stays within the 10,000 rows read, the sells
    counted are all the sells of the log. *)
Theorem win_rate_bounds (self : PerformanceAnalytics) (db : Db) :
  exists rate wins total,
    analytics_py.get_win_rate self db = (Ok (rate, wins, total), db)
    /\ (wins <= total)%nat
    /\ 0 <= rate <= 100
    /\ (total = 0%nat -> rate = 0 /\ wins = 0%nat)
    /\ ((0 < total)%nat ->
        rate == inject_Z (Z.of_nat wins) / inject_Z (Z.of_nat total) * 100)
    /\ ((Z.of_nat (length (trades db)) <= 10000)%Z ->
        total = length (List.filter analytics_py.is_sell (trades db))).
Proof.
  unfold analytics_py.get_win_rate.
  erewrite bind_ok by (unfold database.get_trades, gets; reflexivity).
  set (rows := database.sql_limit 10000 _).
  assert (Hall : (Z.of_nat (length (trades db)) <= 10000)%Z ->
                 length (List.filter analytics_py.is_sell rows)
                 = length (List.filter analytics_py.is_sell (trades db))).
  { intros Hlen. unfold rows. rewrite sql_limit_all.
    - apply Permutation_length, List_filter_perm, order_by_Permutation.
    - rewrite (Permutation_length (order_by_Permutation _ (trades db))).
      exact Hlen. }
  destruct (List.filter analytics_py.is_sell rows) as [|t sells] eqn:Es.
  { do 3 eexists. split; [reflexivity|].
    split; [lia|]. split; [split; discriminate|].
    split; [intros _; split; reflexivity|]. split; [lia|exact Hall]. }
  set (wins := length (List.filter _ (t :: sells))).
  set (total := length (t :: sells)).
  assert (Hle : (wins <= total)%nat) by apply filter_length_le.
  assert (Htot : (0 < total)%nat) by (unfold total; cbn [length]; lia).
  assert (Hw : 0 <= inject_Z (Z.of_nat wins))
    by (rewrite <- (Zle_Qle 0); lia).
  assert (Ht : 0 < inject_Z (Z.of_nat total))
    by (rewrite <- (Zlt_Qlt 0); lia).
  assert (Hwt : inject_Z (Z.of_nat wins) <= inject_Z (Z.of_nat total))
    by (rewrite <- Zle_Qle; lia).
  assert (Hlow : 0 <= inject_Z (Z.of_nat wins) / inject_Z (Z.of_nat total)).
  { apply Qle_shift_div_l; [exact Ht|]. lra. }
  assert (Hhigh : inject_Z (Z.of_nat wins) / inject_Z (Z.of_nat total) <= 1).
  { apply Qle_shift_div_r; [exact Ht|]. lra. }
  do 3 eexists. split; [reflexivity|].
  split; [exact Hle|]. split; [split; lra|].
  split; [intros H; lia|]. split; [intros _; reflexivity|exact Hall].
Qed.

(** X28: [get_total_return] of an analytics object built by its
    constructor never divides by zero, because a zero starting balance is
    replaced by the configured one: without account row it returns
    (0, 0); with one it returns the total equity minus the starting
    balance and that difference as a percentage of the starting balance,
    which is 0 when the equity equals the starting balance.  The store is
    left as it is. *)
Theorem total_return_of_built_analytics (arg : option Q) (db : Db) :
  let self := analytics_py.init arg in
  ~ pa_starting_balance self == 0
  /\ (account db = None ->
      analytics_py.get_total_return self db = (Ok (0, 0), db))
  /\ (forall a, account db = Some a ->
      exists pct,
        analytics_py.get_total_return self db
        = (Ok (total_equity a - pa_starting_balance self, pct), db)
        /\ pct == (total_equity a - pa_starting_balance self)
                  / pa_starting_balance self * 100
        /\ (total_equity a == pa_starting_balance self -> pct == 0)).
Proof.
  cbv zeta.
  assert (Hnz : ~ pa_starting_balance (analytics_py.init arg) == 0).
  { unfold analytics_py.init. cbn [pa_starting_balance].
    destruct arg as [b|]; [|discriminate].
    unfold truthy. destruct (Qeq_bool b 0) eqn:E; [discriminate|].
    apply Qeq_bool_false. exact E. }
  split; [exact Hnz|].
  unfold analytics_py.get_total_return. split.
  - intros Hnone.
    erewrite bind_ok by (unfold database.get_account, gets; reflexivity).
    rewrite Hnone. reflexivity.
  - intros a Hsome.
    erewrite bind_ok by (unfold database.get_account, gets; reflexivity).
    rewrite Hsome.
    erewrite bind_ok
      by (rewrite float_div_run;
          replace (Qeq_bool (pa_starting_balance (analytics_py.init arg)) 0)
            with false by (symmetry; apply Qeq_bool_false; exact Hnz);
          reflexivity).
    eexists. split; [reflexivity|]. split; [reflexivity|].
    intros Heq. rewrite Heq. field. exact Hnz.
Qed.

Lemma max_drawdown_bounds_witness :
  (exists pct abs_,
     analytics_py.get_max_drawdown (analytics_py.init None) db_snapshots
     = (Ok (pct, abs_), db_snapshots) /\ 0 <= pct <= 100)
  /\ analytics_py.get_max_drawdown (analytics_py.init None) db_rising
     = (Ok (0, 0), db_rising).
Proof.
  split.
  - destruct (max_drawdown_bounds (analytics_py.init None) db_snapshots)
      as (pct & abs_ & Hrun & Hlow & _ & Hcap & _).
    exists pct, abs_. split; [exact Hrun|]. split; [exact Hlow|].
    apply Hcap. intros e He. unfold db_snapshots in He. cbn [equity_history] in He.
    repeat (apply elem_of_cons in He as [->|He]; [discriminate|]).
    apply elem_of_nil in He. destruct He.
  - destruct (max_drawdown_bounds (analytics_py.init None) db_rising)
      as (pct & abs_ & Hrun & _ & _ & _ & _ & Hrising).
    destruct Hrising as [-> ->]; [|exact Hrun].
    replace (equity_curve db_rising) with [10000; 10000; 12000]
      by (vm_compute; reflexivity).
    repeat constructor; discriminate.
Defined.

Lemma execute_signal_acts_witness :
  main_py.execute_signal bot 4 BUY db_funded
  = (executor.market_buy trader 4 btc 500 ≫= fun r => mret (Some r)) db_funded.
Proof.
  pose proof (execute_signal_acts bot 4 df_bullish_cross db_funded) as H.
  cbv zeta in H. destruct H as (_ & _ & _ & Hbuy & _).
  assert (Hadvice : signal (fst (rsi_ema_strategy.analyze (bot_strategy bot)
                                   df_bullish_cross
                                   (positions db_funded !! bot_symbol bot)))
                    = BUY) by (vm_compute; reflexivity).
  specialize (Hbuy Hadvice). rewrite Hadvice in Hbuy. exact Hbuy.
Defined.
